(** * XXTCloudControl: the relay hub of [main.py]

    A shallow embedding of the websocket hub: the request authenticator
    [is_data_valid], the three registry dictionaries and the controller
    set, the message dispatcher of [handle_connection] and its
    connection-closed handler, followed by the properties proved of them. *)

From Stdlib Require Import ZArith List Ascii String.
From stdpp Require Import base decidable option list gmap sets pretty.

Local Open Scope string_scope.
Local Open Scope list_scope.
Local Open Scope Z_scope.

(** ** hashlib.sha256 and hmac

    The two library routines [is_data_valid] calls, written out so that
    signatures can be computed.  Bytes are integers below 256, words are
    integers below [2^32]. *)

Module Sha256.

Definition wrap (x : Z) : Z := Z.land x 4294967295.
Definition add32 (x y : Z) : Z := wrap (x + y).
Definition rotr (n x : Z) : Z :=
  Z.lor (Z.shiftr x n) (wrap (Z.shiftl x (32 - n))).
Definition not32 (x : Z) : Z := Z.lxor x 4294967295.

Definition choose (x y z : Z) : Z :=
  Z.lxor (Z.land x y) (Z.land (not32 x) z).
Definition majority (x y z : Z) : Z :=
  Z.lxor (Z.lxor (Z.land x y) (Z.land x z)) (Z.land y z).
Definition big_s0 (x : Z) : Z :=
  Z.lxor (Z.lxor (rotr 2 x) (rotr 13 x)) (rotr 22 x).
Definition big_s1 (x : Z) : Z :=
  Z.lxor (Z.lxor (rotr 6 x) (rotr 11 x)) (rotr 25 x).
Definition small_s0 (x : Z) : Z :=
  Z.lxor (Z.lxor (rotr 7 x) (rotr 18 x)) (Z.shiftr x 3).
Definition small_s1 (x : Z) : Z :=
  Z.lxor (Z.lxor (rotr 17 x) (rotr 19 x)) (Z.shiftr x 10).

Definition round_constants : list Z :=
  [ 1116352408; 1899447441; 3049323471; 3921009573; 961987163; 1508970993;
    2453635748; 2870763221; 3624381080; 310598401; 607225278; 1426881987;
    1925078388; 2162078206; 2614888103; 3248222580; 3835390401; 4022224774;
    264347078; 604807628; 770255983; 1249150122; 1555081692; 1996064986;
    2554220882; 2821834349; 2952996808; 3210313671; 3336571891; 3584528711;
    113926993; 338241895; 666307205; 773529912; 1294757372; 1396182291;
    1695183700; 1986661051; 2177026350; 2456956037; 2730485921; 2820302411;
    3259730800; 3345764771; 3516065817; 3600352804; 4094571909; 275423344;
    430227734; 506948616; 659060556; 883997877; 958139571; 1322822218;
    1537002063; 1747873779; 1955562222; 2024104815; 2227730452; 2361852424;
    2428436474; 2756734187; 3204031479; 3329325298 ]%Z.

Definition initial_hash : list Z :=
  [ 1779033703; 3144134277; 1013904242; 2773480762;
    1359893119; 2600822924; 528734635; 1541459225 ]%Z.

(** Big-endian packing of four bytes into a word, and back. *)
Fixpoint words_of_bytes (bs : list Z) : list Z :=
  match bs with
  | a :: b :: c :: d :: rest =>
      (((a * 256 + b) * 256 + c) * 256 + d) :: words_of_bytes rest
  | _ => []
  end.

Definition bytes_of_word (w : Z) : list Z :=
  [ Z.land (Z.shiftr w 24) 255; Z.land (Z.shiftr w 16) 255;
    Z.land (Z.shiftr w 8) 255; Z.land w 255 ].

(** Padding: a single 1 bit, zeros up to 56 mod 64, the bit length on
    eight bytes. *)
Definition pad (msg : list Z) : list Z :=
  let len := Z.of_nat (length msg) in
  let zeros := Z.to_nat ((55 - len) mod 64) in
  let bits := len * 8 in
  msg ++ [128] ++ repeat 0 zeros
      ++ bytes_of_word (Z.shiftr bits 32) ++ bytes_of_word (wrap bits).

(** The message schedule, most recent word first: [rev_sched] holds
    W(t-1), W(t-2), ... and is extended to 64 words. *)
Fixpoint extend (n : nat) (rev_sched : list Z) : list Z :=
  match n with
  | O => rev_sched
  | S n' =>
      let w := fun i => nth i rev_sched 0 in
      let next :=
        add32 (add32 (small_s1 (w 1%nat)) (w 6%nat))
              (add32 (small_s0 (w 14%nat)) (w 15%nat)) in
      extend n' (next :: rev_sched)
  end.

Definition schedule (block : list Z) : list Z :=
  rev (extend 48 (rev block)).

Record regs := Regs { ra : Z; rb : Z; rc : Z; rd : Z;
                      re : Z; rf : Z; rg : Z; rh : Z }.

Definition round (r : regs) (kw : Z * Z) : regs :=
  let t1 := add32 (add32 (add32 (rh r) (big_s1 (re r)))
                         (add32 (choose (re r) (rf r) (rg r)) (fst kw)))
                  (snd kw) in
  let t2 := add32 (big_s0 (ra r)) (majority (ra r) (rb r) (rc r)) in
  Regs (add32 t1 t2) (ra r) (rb r) (rc r) (add32 (rd r) t1) (re r) (rf r) (rg r).

Definition regs_of (h : list Z) : regs :=
  let w := fun i => nth i h 0 in
  Regs (w 0%nat) (w 1%nat) (w 2%nat) (w 3%nat)
       (w 4%nat) (w 5%nat) (w 6%nat) (w 7%nat).

Definition words_of (r : regs) : list Z :=
  [ ra r; rb r; rc r; rd r; re r; rf r; rg r; rh r ].

Definition compress (h : list Z) (block : list Z) : list Z :=
  let r := fold_left round (combine round_constants (schedule block)) (regs_of h) in
  zip_with add32 h (words_of r).

(** The padded message cut into blocks of sixteen words. *)
Fixpoint blocks (n : nat) (ws : list Z) : list (list Z) :=
  match n with
  | O => []
  | S n' =>
      match ws with
      | [] => []
      | _ => firstn 16 ws :: blocks n' (skipn 16 ws)
      end
  end.

Definition digest (msg : list Z) : list Z :=
  let ws := words_of_bytes (pad msg) in
  flat_map bytes_of_word (fold_left compress (blocks (length ws) ws) initial_hash).

End Sha256.

Module Hmac.

Definition block_size : nat := 64.

(** [hmac.new(key, msg, hashlib.sha256).digest()] *)
Definition digest (key msg : list Z) : list Z :=
  let k := if bool_decide (block_size < length key)%nat
           then Sha256.digest key else key in
  let k := k ++ repeat 0 (block_size - length k) in
  let inner := Sha256.digest (map (Z.lxor 54) k ++ msg) in
  Sha256.digest (map (Z.lxor 92) k ++ inner).

End Hmac.

(** ** Strings and bytes

    A [str] is a [string], character by character; [encode] gives its
    bytes, [hex] the lowercase hexadecimal text of a byte sequence,
    [lower] is [str.lower] on the letters A to Z, the only ones that
    lower to a hexadecimal digit. *)

Definition encode (s : string) : list Z :=
  map (fun c => Z.of_nat (nat_of_ascii c)) (list_ascii_of_string s).

Definition hex_digit (n : Z) : ascii :=
  ascii_of_nat (Z.to_nat (if n <? 10 then 48 + n else 87 + n)).

Fixpoint hex (bs : list Z) : string :=
  match bs with
  | [] => EmptyString
  | b :: rest => String (hex_digit (b / 16)) (String (hex_digit (b mod 16)) (hex rest))
  end.

(** [str.lower()] on a text held as its bytes: the capitals of ASCII
    become small letters.  Beyond ASCII [str.lower()] may change a
    character, but never into a hexadecimal digit, so the comparison
    of a lowered text with a digest comes out the same. *)
Definition lower_char (c : ascii) : ascii :=
  let n := nat_of_ascii c in
  if ((65 <=? n) && (n <=? 90))%nat then ascii_of_nat (n + 32) else c.

Fixpoint lower (s : string) : string :=
  match s with
  | EmptyString => EmptyString
  | String c rest => String (lower_char c) (lower rest)
  end.

(** [hmac.new(key, msg, hashlib.sha256).hexdigest()] *)
Definition hmac_hexdigest (key msg : list Z) : string :=
  hex (Hmac.digest key msg).

(** [str(n)] for an [int]. *)
Definition str (n : Z) : string := pretty n.

Definition serv_pass : list Z := encode "12345678".

Definition passhash : list Z :=
  encode (lower (hmac_hexdigest (encode "XXTouch") serv_pass)).

Arguments hmac_hexdigest : simpl never.
Arguments passhash : simpl never.
Arguments str : simpl never.

(** ** Python values

    What [json.loads] returns and what the hub hands to [json.dumps]:
    [None], booleans, integers, floats, strings, lists and dictionaries.
    A dictionary keeps its entries in insertion order, as Python's
    does. *)

(** A [float]: a finite one is [mantissa * 2 ^ exponent] with its sign
    (every double is of this form, [-0.0] included), or an infinity, or
    a NaN.  A NaN is equal to nothing, itself included, and a dictionary
    finds it by the identity of the object only: [obj] is that
    identity. *)
Inductive pyfloat : Type :=
  | FFinite (negative : bool) (mantissa : N) (exponent : Z)
  | FInfinite (negative : bool)
  | FNaN (obj : N).

#[local] Set Warnings "-register-all".
Inductive value : Type :=
  | VNone
  | VBool (b : bool)
  | VInt (n : Z)
  | VFloat (f : pyfloat)
  | VStr (s : string)
  | VList (items : list value)
  | VDict (entries : list (value * value)).

(** The exceptions the handler can meet while it takes a message apart. *)
Inductive exn : Type := KeyError | TypeError.

Inductive result (A : Type) : Type :=
  | Ok (a : A)
  | Raise (e : exn).
Arguments Ok {A} a.
Arguments Raise {A} e.

Definition rbind {A B} (r : result A) (f : A -> result B) : result B :=
  match r with
  | Ok a => f a
  | Raise e => Raise e
  end.

Declare Scope py_scope.
Delimit Scope py_scope with py.
Notation "'let?' x := r 'in' k" := (rbind r (fun x => k))
  (at level 10, x name, r at level 100, k at level 200) : py_scope.
Local Open Scope py_scope.

(** What a dictionary compares keys by.  Numbers are compared by their
    value, whatever their type: [True], [1] and [1.0] are one key,
    [False], [0], [0.0] and [-0.0] are one key.  A float that is no
    integer is [odd * 2 ^ (- shift)] in lowest terms.  Lists and
    dictionaries are unhashable. *)
Inductive key : Type :=
  | KNone
  | KNum (n : Z)
  | KFrac (odd : Z) (shift : positive)
  | KInf (negative : bool)
  | KNaN (obj : N)
  | KStr (s : string).

#[global] Instance key_eq_dec : EqDecision key.
Proof. solve_decision. Defined.

(** A positive number as an odd number times a power of two. *)
Fixpoint odd_part (p : positive) : positive * Z :=
  match p with
  | xO q => let (r, t) := odd_part q in (r, t + 1)
  | _ => (p, 0)
  end.

Definition float_key (f : pyfloat) : key :=
  match f with
  | FFinite _ N0 _ => KNum 0
  | FFinite negative (Npos p) e =>
      let (r, t) := odd_part p in
      let signed := fun x : Z => if negative then - x else x in
      if 0 <=? e + t then KNum (signed (Zpos r * 2 ^ (e + t)))
      else KFrac (signed (Zpos r)) (Z.to_pos (- (e + t)))
  | FInfinite negative => KInf negative
  | FNaN obj => KNaN obj
  end.

Definition hash (v : value) : result key :=
  match v with
  | VNone => Ok KNone
  | VBool b => Ok (KNum (Z.b2z b))
  | VInt n => Ok (KNum n)
  | VFloat f => Ok (float_key f)
  | VStr s => Ok (KStr s)
  | VList _ | VDict _ => Raise TypeError
  end.

(** ** Dictionaries

    An entry holds the key object as it was first stored and the value.
    Assignment to a present key replaces the value in place, assignment
    to an absent one appends; [del] removes the entry. *)

Module Dict.

Definition t (V : Type) : Type := list (value * V).

Definition is_key (k : key) (stored : value) : bool :=
  match hash stored with
  | Ok k' => bool_decide (k = k')
  | Raise _ => false
  end.

Fixpoint get {V} (k : key) (d : t V) : option V :=
  match d with
  | [] => None
  | (stored, v) :: rest => if is_key k stored then Some v else get k rest
  end.

Definition replace {V} (k : key) (v : V) (e : value * V) : value * V :=
  if is_key k (fst e) then (fst e, v) else e.

Definition set {V} (k : key) (obj : value) (v : V) (d : t V) : t V :=
  match get k d with
  | Some _ => map (replace k v) d
  | None => d ++ [(obj, v)]
  end.

Definition del {V} (k : key) (d : t V) : t V :=
  List.filter (fun e => negb (is_key k (fst e))) d.

Definition keys {V} (d : t V) : list value := map fst d.
Definition values {V} (d : t V) : list V := map snd d.

End Dict.

(** [d[k]] for a dictionary of the hub. *)
Definition lookup_item {V} (d : Dict.t V) (obj : value) : result V :=
  let? k := hash obj in
  match Dict.get k d with
  | Some v => Ok v
  | None => Raise KeyError
  end.

(** [d[k] = v] *)
Definition store_item {V} (d : Dict.t V) (obj : value) (v : V) : result (Dict.t V) :=
  let? k := hash obj in Ok (Dict.set k obj v d).

(** [del d[k]] *)
Definition del_item {V} (d : Dict.t V) (obj : value) : result (Dict.t V) :=
  let? k := hash obj in
  match Dict.get k d with
  | Some _ => Ok (Dict.del k d)
  | None => Raise KeyError
  end.

(** [x[name]] with a string constant: only a dictionary can be
    subscripted by a string. *)
Definition getitem (x : value) (name : string) : result value :=
  match x with
  | VDict entries =>
      match Dict.get (KStr name) entries with
      | Some v => Ok v
      | None => Raise KeyError
      end
  | _ => Raise TypeError
  end.

(** [x[name] = v] *)
Definition setitem (x : value) (name : string) (v : value) : result value :=
  match x with
  | VDict entries => Ok (VDict (Dict.set (KStr name) (VStr name) v entries))
  | _ => Raise TypeError
  end.

(** [x['body'] if 'body' in x else ''].  It is evaluated after
    [x['type']] succeeded, hence on dictionaries only. *)
Definition body_or_empty (x : value) : result value :=
  match x with
  | VDict entries =>
      match Dict.get (KStr "body") entries with
      | Some v => Ok v
      | None => Ok (VStr "")
      end
  | _ => Raise TypeError
  end.

(** [x == 'literal'] *)
Definition is_str (x : value) (literal : string) : bool :=
  match x with
  | VStr s => bool_decide (s = literal)
  | _ => false
  end.

(** [for item in x]: a list gives its items, a string its characters, a
    dictionary its keys; nothing else is iterable. *)
Definition iterate (x : value) : result (list value) :=
  match x with
  | VList items => Ok items
  | VStr s => Ok (map (fun c => VStr (String c EmptyString)) (list_ascii_of_string s))
  | VDict entries => Ok (Dict.keys entries)
  | _ => Raise TypeError
  end.

(** A loop that builds a list and stops at the first exception. *)
Fixpoint collect {A B} (f : A -> result (list B)) (l : list A) : result (list B) :=
  match l with
  | [] => Ok []
  | a :: rest =>
      let? here := f a in
      let? others := collect f rest in
      Ok (here ++ others)
  end.

(** ** The authenticator

    [t1] and [t2] are the two readings of [int(time.time())], the second
    taken only when the first comparison holds. *)
Definition is_data_valid (t1 t2 : Z) (data : value) : result bool :=
  let? ts := getitem data "ts" in
  match ts with
  | VInt n =>
      let? sign := getitem data "sign" in
      match sign with
      | VStr s =>
          if t1 - 10 <=? n then
            if n <=? t2 + 10 then
              Ok (bool_decide (lower (hmac_hexdigest passhash (encode (str n))) = lower s))
            else Ok false
          else Ok false
      | _ => Ok false
      end
  | _ => Ok false
  end.

(** ** The hub

    A connection is the websocket object; only its identity matters.
    The four module-level containers make up the state.  A [send] is a
    coroutine [conn.send(json.dumps(payload))] handed to
    [asyncio.gather]; the transport itself is outside the embedding. *)

Definition conn : Type := nat.

Record hub : Type := Hub {
  device_table : Dict.t value;
  device_links : Dict.t conn;
  device_links_map : gmap conn value;
  controllers : gset conn
}.

Definition send : Type := conn * value.

Definition empty_hub : hub := Hub [] [] ∅ ∅.

Definition with_device_table (f : Dict.t value -> Dict.t value) (st : hub) : hub :=
  Hub (f (device_table st)) (device_links st) (device_links_map st) (controllers st).
Definition with_device_links (f : Dict.t conn -> Dict.t conn) (st : hub) : hub :=
  Hub (device_table st) (f (device_links st)) (device_links_map st) (controllers st).
Definition with_device_links_map (f : gmap conn value -> gmap conn value) (st : hub) : hub :=
  Hub (device_table st) (device_links st) (f (device_links_map st)) (controllers st).
Definition with_controllers (f : gset conn -> gset conn) (st : hub) : hub :=
  Hub (device_table st) (device_links st) (device_links_map st) (f (controllers st)).

(** Statements run on the hub and may raise: what was assigned before
    the exception stays assigned. *)
Definition M (A : Type) : Type := hub -> hub * result A.

Definition ret {A} (a : A) : M A := fun st => (st, Ok a).
Definition lift {A} (r : result A) : M A := fun st => (st, r).
Definition gets {A} (f : hub -> A) : M A := fun st => (st, Ok (f st)).
Definition modify (f : hub -> hub) : M unit := fun st => (f st, Ok tt).
Definition bind {A B} (m : M A) (f : A -> M B) : M B :=
  fun st =>
    match m st with
    | (st', Ok a) => f a st'
    | (st', Raise e) => (st', Raise e)
    end.

Notation "x <- m ;; k" := (bind m (fun x => k))
  (at level 100, m at next level, right associativity) : py_scope.
Notation "m ;; k" := (bind m (fun _ => k))
  (at level 100, right associativity) : py_scope.

(** [len(controllers) > 0] *)
Definition has_controllers (st : hub) : bool :=
  bool_decide (0 < size (controllers st))%nat.

(** [[c.send(json.dumps(payload)) for c in controllers]] *)
Definition to_controllers (payload : value) (st : hub) : list send :=
  map (fun c => (c, payload)) (elements (controllers st)).

Definition state_request : value :=
  VDict [(VStr "type", VStr "app/state"); (VStr "body", VStr "")].

(** The [control/devices] branch.  The [print] before the check reads
    [data['ts']]. *)
Definition control_devices (t1 t2 : Z) (websocket : conn) (data : value) : M (list send) :=
  _ <- lift (getitem data "ts") ;;
  valid <- lift (is_data_valid t1 t2 data) ;;
  if negb valid then ret []
  else
    modify (with_controllers (union {[websocket]})) ;;
    table <- gets device_table ;;
    ret [(websocket,
          VDict [(VStr "type", VStr "control/devices"); (VStr "body", VDict table)])].

(** The [control/refresh] branch. *)
Definition control_refresh (t1 t2 : Z) (websocket : conn) (data : value) : M (list send) :=
  valid <- lift (is_data_valid t1 t2 data) ;;
  if negb valid then ret []
  else
    modify (with_controllers (union {[websocket]})) ;;
    links <- gets device_links ;;
    ret (map (fun dev => (dev, state_request)) (Dict.values links)).

(** One element of the comprehension of [control/command]:
    [device_links[udid].send(json.dumps({...}))]. *)
Definition command_send (links : Dict.t conn) (message : value) (udid : value)
  : result (list send) :=
  let? dev := lookup_item links udid in
  let? ty := getitem message "type" in
  let? payload := body_or_empty message in
  Ok [(dev, VDict [(VStr "type", ty); (VStr "body", payload)])].

(** The [control/command] branch. *)
Definition control_command (t1 t2 : Z) (websocket : conn) (data : value) : M (list send) :=
  valid <- lift (is_data_valid t1 t2 data) ;;
  if negb valid then ret []
  else
    modify (with_controllers (union {[websocket]})) ;;
    body <- lift (getitem data "body") ;;
    devices <- lift (getitem body "devices") ;;
    links <- gets device_links ;;
    lift (let? udids := iterate devices in
          collect (command_send links body) udids).

(** The [control/commands] branch: for every udid, every command. *)
Definition control_commands (t1 t2 : Z) (websocket : conn) (data : value) : M (list send) :=
  valid <- lift (is_data_valid t1 t2 data) ;;
  if negb valid then ret []
  else
    modify (with_controllers (union {[websocket]})) ;;
    body <- lift (getitem data "body") ;;
    devices <- lift (getitem body "devices") ;;
    commands <- lift (getitem body "commands") ;;
    links <- gets device_links ;;
    lift (let? udids := iterate devices in
          collect (fun udid =>
                     let? cmds := iterate commands in
                     collect (fun cmd => command_send links cmd udid) cmds)
                  udids).

(** The [app/state] branch: the three assignments. *)
Definition app_state (websocket : conn) (data : value) : M unit :=
  body <- lift (getitem data "body") ;;
  system <- lift (getitem body "system") ;;
  udid <- lift (getitem system "udid") ;;
  links <- gets device_links ;;
  links' <- lift (store_item links udid websocket) ;;
  modify (with_device_links (fun _ => links')) ;;
  modify (with_device_links_map <[websocket := udid]>) ;;
  table <- gets device_table ;;
  table' <- lift (store_item table udid body) ;;
  modify (with_device_table (fun _ => table')).

(** The relay below the [if]/[elif] chain. *)
Definition relay (websocket : conn) (data : value) : M (list send) :=
  st <- gets id ;;
  if has_controllers st then
    match device_links_map st !! websocket with
    | Some udid =>
        data' <- lift (setitem data "udid" udid) ;;
        ret (to_controllers data' st)
    | None => ret []
    end
  else ret [].

(** The body of the inner [try]. *)
Definition dispatch (t1 t2 : Z) (websocket : conn) (data : value) : M (list send) :=
  ty <- lift (getitem data "type") ;;
  if is_str ty "control/devices" then control_devices t1 t2 websocket data
  else if is_str ty "control/refresh" then control_refresh t1 t2 websocket data
  else if is_str ty "control/command" then control_command t1 t2 websocket data
  else if is_str ty "control/commands" then control_commands t1 t2 websocket data
  else
    (if is_str ty "app/state" then app_state websocket data else ret tt) ;;
    relay websocket data.

(** The inner [try] with its [except Exception: print(e)]. *)
Definition process (t1 t2 : Z) (websocket : conn) (data : value) (st : hub)
  : hub * list send :=
  match dispatch t1 t2 websocket data st with
  | (st', Ok sends) => (st', sends)
  | (st', Raise _) => (st', [])
  end.

(** [{'type': 'device/disconnect', 'body': udid}] *)
Definition device_disconnect (udid : value) : value :=
  VDict [(VStr "type", VStr "device/disconnect"); (VStr "body", udid)].

(** The handler of [websockets.exceptions.ConnectionClosed].  An
    exception raised here leaves [handle_connection]. *)
Definition connection_closed (websocket : conn) : M (list send) :=
  st <- gets id ;;
  if bool_decide (websocket ∈ controllers st) then
    modify (with_controllers (fun cs => cs ∖ {[websocket]})) ;;
    ret []
  else
    match device_links_map st !! websocket with
    | Some udid =>
        table <- gets device_table ;;
        table' <- lift (del_item table udid) ;;
        modify (with_device_table (fun _ => table')) ;;
        links <- gets device_links ;;
        links' <- lift (del_item links udid) ;;
        modify (with_device_links (fun _ => links')) ;;
        modify (with_device_links_map (delete websocket)) ;;
        st' <- gets id ;;
        if has_controllers st' then
          ret (to_controllers (device_disconnect udid) st')
        else ret []
    | None => ret []
    end.

(** The hub and the sends the handler leaves behind; a handler that
    raised had sent nothing yet. *)
Definition on_close (websocket : conn) (st : hub) : hub * list send :=
  match connection_closed websocket st with
  | (st', Ok sends) => (st', sends)
  | (st', Raise _) => (st', [])
  end.

(** The hub once [websocket] has registered [udid] with payload [body]:
    what the three assignments of the [app/state] branch leave. *)
Definition registered_hub (websocket : conn) (udid : value) (k : key) (body : value)
    (st : hub) : hub :=
  Hub (Dict.set k udid body (device_table st))
      (Dict.set k udid websocket (device_links st))
      (<[websocket := udid]> (device_links_map st))
      (controllers st).

(** The hub once the close handler has deleted the entries of the udid
    with key [k] and the reverse entry of [websocket]. *)
Definition unregistered_hub (websocket : conn) (k : key) (st : hub) : hub :=
  Hub (Dict.del k (device_table st))
      (Dict.del k (device_links st))
      (delete websocket (device_links_map st))
      (controllers st).

(** The udids with a connection are the udids with a state payload, in
    the same order. *)
Definition registry_agrees (st : hub) : Prop :=
  Dict.keys (device_links st) = Dict.keys (device_table st).

(** [websocket] holds a device record under [udid]: the reverse entry
    names the udid and the forward entry of that udid names the
    connection. *)
Definition registered_as (st : hub) (websocket : conn) (udid : value) : Prop :=
  device_links_map st !! websocket = Some udid /\
  lookup_item (device_links st) udid = Ok websocket.

(** The four authenticated message types. *)
Definition is_control (ty : value) : bool :=
  is_str ty "control/devices" || is_str ty "control/refresh"
  || is_str ty "control/command" || is_str ty "control/commands".

(** A text frame or a binary one. *)
Inductive frame : Type :=
  | Binary (payload : list Z)
  | Text (message : string).

Definition bad_json (message : string) : value :=
  VDict [(VStr "error", VStr "bad json"); (VStr "type", VStr "error");
         (VStr "body", VStr message)].

(** What [json.loads] does with a text: a value, the
    [json.decoder.JSONDecodeError] the handler catches, or another
    exception (a [ValueError] for an integer literal beyond the digit
    limit, a [RecursionError]), which nothing in [handle_connection]
    catches. *)
Inductive loaded : Type :=
  | Loaded (data : value)
  | JSONDecodeError
  | OtherError.

(** What happens on a connection.  A frame, the [serial]-th the hub
    receives, arrives while the clock reads [t1] then [t2]; or the loop
    [async for message in websocket] ends: by raising
    [ConnectionClosed], or by running out of messages, as it does
    without an exception when the peer closes with code 1000 or 1001. *)
Inductive event : Type :=
  | Message (websocket : conn) (serial : nat) (t1 t2 : Z) (message : frame)
  | ConnectionClosed (websocket : conn)
  | IterationEnded (websocket : conn).

(** How the loop of one connection ends. *)
Inductive ending : Type := Raised | Exhausted.

Section Hub.

(** [json.loads] on the text of frame number [serial].  The objects it
    returns are new ones each time: the number of the frame lets a NaN
    of one frame differ from the NaN of every other. *)
Variable json_loads : nat -> string -> loaded.

(** One turn of the [async for] loop. *)
Definition on_message (serial : nat) (t1 t2 : Z) (websocket : conn) (message : frame)
    (st : hub) : hub * list send :=
  match message with
  | Binary _ => (st, [])
  | Text raw =>
      match json_loads serial raw with
      | JSONDecodeError => (st, [(websocket, bad_json raw)])
      | OtherError => (st, [])
      | Loaded data => process t1 t2 websocket data st
      end
  end.

(** Whether the loop goes on after the frame: an exception of
    [json.loads] other than [JSONDecodeError] leaves
    [handle_connection], past the [except] clause of the loop. *)
Definition handler_survives (serial : nat) (message : frame) : bool :=
  match message with
  | Binary _ => true
  | Text raw =>
      match json_loads serial raw with
      | OtherError => false
      | _ => true
      end
  end.

Definition step (ev : event) (st : hub) : hub * list send :=
  match ev with
  | Message websocket serial t1 t2 message => on_message serial t1 t2 websocket message st
  | ConnectionClosed websocket => on_close websocket st
  | IterationEnded websocket => (st, [])
  end.

(** The hub after a sequence of events, with everything it sent.  The
    sequences are all the hub can meet, and more: a frame may follow
    the end of its connection. *)
Fixpoint run (evs : list event) (st : hub) : hub * list send :=
  match evs with
  | [] => (st, [])
  | ev :: rest =>
      let (st', out) := step ev st in
      let (st'', out') := run rest st' in
      (st'', out ++ out')
  end.

(** The frames of one connection in turn, until one makes the handler
    give up; the flag tells whether the loop is still running. *)
Fixpoint handle_frames (websocket : conn) (frames : list (nat * Z * Z * frame))
    (st : hub) : hub * list send * bool :=
  match frames with
  | [] => (st, [], true)
  | (serial, t1, t2, message) :: rest =>
      let (st', out) := on_message serial t1 t2 websocket message st in
      if handler_survives serial message then
        let '(st'', out', alive) := handle_frames websocket rest st' in
        (st'', out ++ out', alive)
      else (st', out, false)
  end.

(** [handle_connection(websocket)] run without another connection's
    handler in between: the frames received in turn, then, when the
    loop ends by raising [ConnectionClosed], the handler of that
    exception, and nothing when it ends otherwise. *)
Definition handle_connection (websocket : conn) (frames : list (nat * Z * Z * frame))
    (how : ending) (st : hub) : hub * list send :=
  let '(st', out, alive) := handle_frames websocket frames st in
  if alive then
    match how with
    | Raised => let (st'', out') := on_close websocket st' in (st'', out ++ out')
    | Exhausted => (st', out)
    end
  else (st', out).

End Hub.

(** A decoder that knows two documents, the empty object and the empty
    list: it agrees with [json.loads] on these two texts and on every
    text that is not JSON. *)
Definition loads_sample (serial : nat) (raw : string) : loaded :=
  if bool_decide (raw = "{}") then Loaded (VDict [])
  else if bool_decide (raw = "[]") then Loaded (VList [])
  else JSONDecodeError.

(** ** Sample traffic

    The clock reads 1700000000.  Connection 1 is a device that reports
    as [dev-1]; connections 2 and 3 are controllers. *)

Definition sample_now : Z := 1700000000.

Definition sample_sign : string :=
  "e3ac0c85892f43099e12f507a31098351cfb0c7a4a9e1ede093fef91099a3f91".

Definition sample_payload : value :=
  VDict [(VStr "system", VDict [(VStr "udid", VStr "dev-1")])].

Definition sample_state : value :=
  VDict [(VStr "type", VStr "app/state"); (VStr "body", sample_payload)].

Definition sample_devices_request : value :=
  VDict [(VStr "ts", VInt sample_now); (VStr "sign", VStr sample_sign);
         (VStr "type", VStr "control/devices")].

Definition sample_touch : value :=
  VDict [(VStr "x", VInt 1); (VStr "y", VInt 2)].

(** A [control/command] request for the udids [udids]. *)
Definition sample_command (udids : list string) : value :=
  VDict [(VStr "ts", VInt sample_now); (VStr "sign", VStr sample_sign);
         (VStr "type", VStr "control/command");
         (VStr "body",
          VDict [(VStr "devices", VList (map VStr udids));
                 (VStr "type", VStr "touch/down");
                 (VStr "body", sample_touch)])].

(** A [control/commands] request for the udids [udids]. *)
Definition sample_commands (udids : list string) : value :=
  VDict [(VStr "ts", VInt sample_now); (VStr "sign", VStr sample_sign);
         (VStr "type", VStr "control/commands");
         (VStr "body",
          VDict [(VStr "devices", VList (map VStr udids));
                 (VStr "commands",
                  VList [VDict [(VStr "type", VStr "touch/down"); (VStr "body", sample_touch)];
                         VDict [(VStr "type", VStr "touch/up"); (VStr "body", sample_touch)]])])].

(** A request whose signature is wrong. *)
Definition sample_forged_request : value :=
  VDict [(VStr "ts", VInt sample_now); (VStr "sign", VStr "00");
         (VStr "type", VStr "control/refresh")].

(** A message of a device that is no state report. *)
Definition sample_log : value :=
  VDict [(VStr "type", VStr "app/log"); (VStr "body", VStr "started")].

(** The hub with the device registered and no controller. *)
Definition hub_device : hub :=
  Hub [(VStr "dev-1", sample_payload)] [(VStr "dev-1", 1%nat)]
      {[1%nat := VStr "dev-1"]} ∅.

(** The hub with the device registered and both controllers. *)
Definition hub_full : hub :=
  Hub [(VStr "dev-1", sample_payload)] [(VStr "dev-1", 1%nat)]
      {[1%nat := VStr "dev-1"]} {[2%nat; 3%nat]}.

(** A request carrying [ts] and the signature the hub computes for it. *)
Definition signed_request (ts : Z) : value :=
  VDict [(VStr "ts", VInt ts);
         (VStr "sign", VStr (hmac_hexdigest passhash (encode (str ts))))].

(** A [control/*] branch leaves the three dictionaries alone. *)
Definition same_registry (st st' : hub) : Prop :=
  device_table st' = device_table st /\
  device_links st' = device_links st /\
  device_links_map st' = device_links_map st.

(** ** The status poller *)

(** [send_status_request_to_all_devices()]: nothing when [device_links]
    is empty, otherwise one [app/state] request for every connection in
    [device_links.values()], gathered with [return_exceptions=True]. *)
Definition send_status_request_to_all_devices (st : hub) : list send :=
  if bool_decide (length (device_links st) = 0%nat) then []
  else map (fun device_conn => (device_conn, state_request))
           (Dict.values (device_links st)).

(** One turn of the loop of [status_request_timer]: the sleep is over
    and [stop_timer] is read again before the requests are sent. *)
Definition status_request_timer_turn (stop_timer : bool) (st : hub) : list send :=
  if negb stop_timer then send_status_request_to_all_devices st else [].

(** ** What the registry keeps *)

(** [body['system']['udid']], as a key. *)
Definition payload_key (body : value) : result key :=
  let? system := getitem body "system" in
  let? udid := getitem system "udid" in
  hash udid.

(** Every payload is stored under the udid it carries. *)
Definition table_consistent (table : Dict.t value) : Prop :=
  Forall (fun e => exists k, hash e.1 = Ok k /\ payload_key e.2 = Ok k) table.

(** The key objects of a dictionary are hashable and no two of them are
    the same key. *)
Definition keys_unique {V} (d : Dict.t V) : Prop :=
  exists ks, map hash (Dict.keys d) = map Ok ks /\ NoDup ks.

(** The sender of an event. *)
Definition event_conn (ev : event) : conn :=
  match ev with
  | Message websocket _ _ _ _ => websocket
  | ConnectionClosed websocket => websocket
  | IterationEnded websocket => websocket
  end.

(** The message a device gets for a command. *)
Definition command_message (ty payload : value) : value :=
  VDict [(VStr "type", ty); (VStr "body", payload)].

(** A second device report, a command without a body and a report whose
    udid is a list. *)
Definition sample_state_other : value :=
  VDict [(VStr "type", VStr "app/state");
         (VStr "body", VDict [(VStr "system", VDict [(VStr "udid", VStr "dev-2")])])].

Definition sample_command_no_body : value :=
  VDict [(VStr "ts", VInt sample_now); (VStr "sign", VStr sample_sign);
         (VStr "type", VStr "control/command")].

Definition sample_state_unhashable : value :=
  VDict [(VStr "type", VStr "app/state");
         (VStr "body", VDict [(VStr "system", VDict [(VStr "udid", VList [])])])].

Definition sample_refresh_request : value :=
  VDict [(VStr "ts", VInt sample_now); (VStr "sign", VStr sample_sign);
         (VStr "type", VStr "control/refresh")].

(** The sample signature in capitals, on a refresh request. *)
Definition sample_refresh_capitals : value :=
  VDict [(VStr "ts", VInt sample_now);
         (VStr "sign",
          VStr "E3AC0C85892F43099E12F507A31098351CFB0C7A4A9E1EDE093FEF91099A3F91");
         (VStr "type", VStr "control/refresh")].

(** [data] is a state report with payload [body] and udid [udid], a
    hashable value with key [k]. *)
Definition reports (data body udid : value) (k : key) : Prop :=
  getitem data "type" = Ok (VStr "app/state") /\
  getitem data "body" = Ok body /\
  (exists system, getitem body "system" = Ok system /\ getitem system "udid" = Ok udid) /\
  hash udid = Ok k.

(** Payloads under their udids, and no udid twice in either dictionary. *)
Definition registry_sound (st : hub) : Prop :=
  table_consistent (device_table st) /\
  keys_unique (device_table st) /\
  keys_unique (device_links st).

(** A hub whose only trace of a device is a reverse entry: what is left
    of the sample hub once connection 4 has taken over [dev-1] and
    connection 1 has closed. *)
Definition hub_stale : hub :=
  Hub [] [] {[4%nat := VStr "dev-1"]} ∅.

(** The connections a send may go to: the sender of the event, a
    connection of [device_links] as it was before the event, a
    controller of the hub after it. *)
Definition known_target (sender : conn) (before after : hub) (s : send) : Prop :=
  s.1 = sender \/
  In s.1 (Dict.values (device_links before)) \/
  s.1 ∈ controllers after.

(** ** Equality up to case

    The comparison of two signatures in the words of the
    specification: the texts have the same length and, place by place,
    the same character or the two cases of one letter. *)

Definition is_capital (c : ascii) : bool :=
  let n := nat_of_ascii c in ((65 <=? n) && (n <=? 90))%nat.

Definition same_letter (c d : ascii) : bool :=
  Ascii.eqb c d
  || (is_capital c && (nat_of_ascii d =? nat_of_ascii c + 32)%nat)
  || (is_capital d && (nat_of_ascii c =? nat_of_ascii d + 32)%nat).

Fixpoint equal_ignoring_case (s t : string) : bool :=
  match s, t with
  | EmptyString, EmptyString => true
  | String c s', String d t' => same_letter c d && equal_ignoring_case s' t'
  | _, _ => false
  end.

(** All the characters. *)
Definition all_ascii : list ascii := map ascii_of_nat (seq 0 256).

(** ** Connections that end *)

(** A text between double quotes. *)
Definition quoted (s : string) : string :=
  String (ascii_of_nat 34) (s ++ String (ascii_of_nat 34) EmptyString)%string.

(** The text [{"type": "app/state", "body": {"system": {"udid": "dev-1"}}}]. *)
Definition text_state : string :=
  ("{" ++ quoted "type" ++ ": " ++ quoted "app/state" ++ ", " ++ quoted "body" ++ ": {"
   ++ quoted "system" ++ ": {" ++ quoted "udid" ++ ": " ++ quoted "dev-1" ++ "}}}")%string.

(** The text [{"ts": 1700000000, "sign": "e3ac...3f91", "type": "control/devices"}]. *)
Definition text_devices : string :=
  ("{" ++ quoted "ts" ++ ": 1700000000, " ++ quoted "sign" ++ ": " ++ quoted sample_sign
   ++ ", " ++ quoted "type" ++ ": " ++ quoted "control/devices" ++ "}")%string.

(** A decoder that also knows these two texts. *)
Definition loads_traffic (serial : nat) (raw : string) : loaded :=
  if bool_decide (raw = text_state) then Loaded sample_state
  else if bool_decide (raw = text_devices) then Loaded sample_devices_request
  else loads_sample serial raw.

(** The two controllers and no device. *)
Definition hub_controllers : hub := Hub [] [] ∅ {[2%nat; 3%nat]}.

(** The hub with the device registered and connection 2 the only
    controller. *)
Definition hub_watched : hub :=
  Hub [(VStr "dev-1", sample_payload)] [(VStr "dev-1", 1%nat)]
      {[1%nat := VStr "dev-1"]} {[2%nat]}.

(** What is left of [hub_full] once connection 4 has reported as
    [dev-1] and the handler of connection 1 has met [ConnectionClosed]:
    connection 4 has a reverse entry and nothing else. *)
Definition hub_orphan : hub :=
  Hub [] [] {[4%nat := VStr "dev-1"]} {[2%nat; 3%nat]}.

(** The sample state report as the relay passes it on. *)
Definition sample_state_relayed : value :=
  VDict [(VStr "type", VStr "app/state"); (VStr "body", sample_payload);
         (VStr "udid", VStr "dev-1")].

(** The sample log line as the relay passes it on. *)
Definition sample_log_relayed : value :=
  VDict [(VStr "type", VStr "app/log"); (VStr "body", VStr "started");
         (VStr "udid", VStr "dev-1")].

(** The reply to [control/devices] while [dev-1] is in the table. *)
Definition sample_devices_reply : value :=
  VDict [(VStr "type", VStr "control/devices");
         (VStr "body", VDict [(VStr "dev-1", sample_payload)])].


(** The hub with [dev-1] on connection 1, [dev-2] on connection 4 and
    both controllers. *)
Definition hub_two_devices : hub :=
  (process sample_now sample_now 4%nat sample_state_other hub_full).1.

(** A state report with the udid [udid]. *)
Definition sample_report (udid : value) : value :=
  VDict [(VStr "type", VStr "app/state");
         (VStr "body", VDict [(VStr "system", VDict [(VStr "udid", udid)])])].

(** * Properties *)

(** ** Keys of dictionaries *)

(** Numbers that are equal are one key, whatever their type; a float
    that is no integer is a key of its own; a NaN is equal to no other
    NaN. *)
Example hash_numbers :
  hash (VFloat (FFinite false 1 0)) = hash (VInt 1) /\
  hash (VBool true) = hash (VInt 1) /\
  hash (VFloat (FFinite false 0 0)) = hash (VInt 0) /\
  hash (VFloat (FFinite true 0 0)) = hash (VInt 0) /\
  hash (VBool false) = hash (VInt 0) /\
  hash (VFloat (FFinite false 4 (-2))) = hash (VInt 1) /\
  hash (VFloat (FFinite true 5 1)) = hash (VInt (-10)) /\
  hash (VFloat (FFinite false 6 (-2))) = hash (VFloat (FFinite false 3 (-1))) /\
  hash (VFloat (FFinite false 3 (-1))) <> hash (VInt 1) /\
  hash (VFloat (FNaN 0)) <> hash (VFloat (FNaN 1)) /\
  hash (VStr "1") <> hash (VInt 1).
Proof. repeat split; try reflexivity; discriminate. Qed.

(** The key of a finite float depends on its value alone. *)
Lemma float_key_scale negative p e :
  float_key (FFinite negative (Npos p~0) e) = float_key (FFinite negative (Npos p) (e + 1)).
Proof.
  simpl. destruct (odd_part p) as [r t].
  by replace (e + 1 + t) with (e + (t + 1)) by lia.
Qed.

(** A connection that reports the udid [1.0] takes over the record of
    the udid [1]; two reports whose udid is NaN make two records. *)
Example number_udids :
  let st1 := (process 0 0 1%nat (sample_report (VInt 1)) empty_hub).1 in
  let st2 := (process 0 0 4%nat (sample_report (VFloat (FFinite false 1 0))) st1).1 in
  let st3 := (process 0 0 5%nat (sample_report (VFloat (FNaN 0))) st2).1 in
  let st4 := (process 0 0 5%nat (sample_report (VFloat (FNaN 1))) st3).1 in
  device_links st2 = [(VInt 1, 4%nat)] /\
  device_links_map st2 !! 1%nat = Some (VInt 1) /\
  device_links_map st2 !! 4%nat = Some (VFloat (FFinite false 1 0)) /\
  lookup_item (device_links st2) (VBool true) = Ok 4%nat /\
  device_links st4
  = [(VInt 1, 4%nat); (VFloat (FNaN 0), 5%nat); (VFloat (FNaN 1), 5%nat)].
Proof. repeat split; reflexivity. Qed.

(** ** Hashing *)

Example sha256_abc :
  hex (Sha256.digest (encode "abc"))
  = "ba7816bf8f01cfea414140de5dae2223b00361a396177a9cb410ff61f20015ad".
Proof. vm_compute. reflexivity. Qed.

Example sha256_empty :
  hex (Sha256.digest [])
  = "e3b0c44298fc1c149afbf4c8996fb92427ae41e4649b934ca495991b7852b855".
Proof. vm_compute. reflexivity. Qed.

Example passhash_value :
  passhash
  = encode "d65ab6ee31ff1f6a5ced1ed6cce58127d000cb957854b382983ba07c89acb835".
Proof. vm_compute. reflexivity. Qed.

Example sign_1700000000 :
  hmac_hexdigest passhash (encode (str 1700000000))
  = "e3ac0c85892f43099e12f507a31098351cfb0c7a4a9e1ede093fef91099a3f91".
Proof. vm_compute. reflexivity. Qed.

Example str_examples : str 0 = "0" /\ str (-42) = "-42" /\ str 1700000010 = "1700000010".
Proof. vm_compute. auto. Qed.

Lemma Ok_inj {A} (a b : A) : Ok a = Ok b -> a = b.
Proof. intros H. by injection H. Qed.

(** A digest is thirty-two bytes' worth of lowercase hexadecimal
    digits: [hexdigest().lower()] is [hexdigest()]. *)
Lemma hex_digit_lower n : 0 <= n < 16 -> lower_char (hex_digit n) = hex_digit n.
Proof.
  intros Hn. rewrite <- (Z2Nat.id n) by lia.
  assert (Hm : (Z.to_nat n < 16)%nat) by lia.
  revert Hm. generalize (Z.to_nat n) as m. intros m Hm.
  do 16 (destruct m as [|m]; [reflexivity|]). lia.
Qed.

Lemma hex_lower bs : Forall (fun b => 0 <= b < 256) bs -> lower (hex bs) = hex bs.
Proof.
  induction 1 as [|b bs Hb _ IH]; [reflexivity|].
  simpl. rewrite IH, !hex_digit_lower; [reflexivity| |].
  - apply Z.mod_pos_bound. lia.
  - split; [apply Z.div_pos; lia | apply Z.div_lt_upper_bound; lia].
Qed.

Lemma bytes_of_word_range w : Forall (fun b => 0 <= b < 256) (Sha256.bytes_of_word w).
Proof.
  unfold Sha256.bytes_of_word.
  repeat constructor;
    change 255 with (Z.ones 8); rewrite Z.land_ones by lia;
    apply Z.mod_pos_bound; lia.
Qed.

Lemma sha256_digest_range msg : Forall (fun b => 0 <= b < 256) (Sha256.digest msg).
Proof.
  unfold Sha256.digest.
  induction (fold_left Sha256.compress _ _) as [|w ws IH]; [constructor|].
  change (flat_map Sha256.bytes_of_word (w :: ws))
    with (Sha256.bytes_of_word w ++ flat_map Sha256.bytes_of_word ws).
  apply Forall_app. split; [apply bytes_of_word_range | exact IH].
Qed.

Lemma hmac_hexdigest_lower key msg :
  lower (hmac_hexdigest key msg) = hmac_hexdigest key msg.
Proof.
  unfold hmac_hexdigest, Hmac.digest. apply hex_lower, sha256_digest_range.
Qed.

(** From here on signatures are computed with [vm_compute] only. *)
Opaque hmac_hexdigest passhash.

(** ** Dictionaries *)

Module DictFacts.
Import Dict.

Lemma is_key_hash k obj : hash obj = Ok k -> is_key k obj = true.
Proof. unfold is_key. intros ->. by apply bool_decide_eq_true. Qed.

Lemma is_key_other k k' obj : hash obj = Ok k -> k' <> k -> is_key k' obj = false.
Proof. unfold is_key. intros -> ?. by apply bool_decide_eq_false. Qed.

Lemma is_key_true k obj : is_key k obj = true -> hash obj = Ok k.
Proof.
  unfold is_key. destruct (hash obj) as [k'|]; [|done].
  intros H. apply bool_decide_eq_true in H. by subst.
Qed.

(** Whether a key is present is a matter of the key objects alone. *)
Lemma get_none_keys {V} k (d : t V) :
  get k d = None <-> existsb (is_key k) (keys d) = false.
Proof.
  induction d as [|[obj v] d IH]; simpl; [done|].
  destruct (is_key k obj); simpl; [split; discriminate | exact IH].
Qed.

Lemma get_some_keys {V W} k (d : t V) (d' : t W) :
  keys d = keys d' -> is_Some (get k d) -> is_Some (get k d').
Proof.
  intros Hk Hs. destruct (get k d') eqn:E; [eauto|].
  apply get_none_keys in E. rewrite <- Hk in E. apply get_none_keys in E.
  rewrite E in Hs. by destruct Hs.
Qed.

Lemma keys_replace {V} k (v : V) (d : t V) : keys (map (replace k v) d) = keys d.
Proof.
  unfold keys. rewrite map_map. apply map_ext. intros [obj w].
  unfold replace. simpl. by destruct (is_key k obj).
Qed.

Lemma keys_set {V W} k obj (v : V) (w : W) (d : t V) (d' : t W) :
  keys d = keys d' -> keys (set k obj v d) = keys (set k obj w d').
Proof.
  intros Hk. unfold set.
  destruct (get k d) eqn:E, (get k d') eqn:E'.
  - by rewrite !keys_replace.
  - apply get_none_keys in E'. rewrite <- Hk in E'. apply get_none_keys in E'. congruence.
  - apply get_none_keys in E. rewrite Hk in E. apply get_none_keys in E. congruence.
  - unfold keys in *. rewrite !map_app. simpl. by rewrite Hk.
Qed.

Lemma keys_del {V} k (d : t V) :
  keys (del k d) = List.filter (fun obj => negb (is_key k obj)) (keys d).
Proof.
  induction d as [|[obj v] d IH]; simpl; [done|].
  destruct (is_key k obj); simpl; by rewrite ?IH.
Qed.

Lemma get_replace {V} k k' (v : V) (d : t V) :
  get k' (map (replace k v) d)
  = if bool_decide (k' = k) then (fun _ => v) <$> get k d else get k' d.
Proof.
  induction d as [|[obj w] d IH]; simpl.
  - by case_bool_decide.
  - unfold replace at 1. simpl.
    destruct (is_key k obj) eqn:Ek; simpl; rewrite IH; clear IH.
    + apply is_key_true in Ek. case_bool_decide as Hkk.
      * subst k'. by rewrite (is_key_hash _ _ Ek).
      * by rewrite (is_key_other _ _ _ Ek Hkk).
    + case_bool_decide as Hkk; [|done].
      subst k'. by rewrite Ek.
Qed.

Lemma get_app_none {V} k (d d' : t V) : get k d = None -> get k (d ++ d') = get k d'.
Proof.
  induction d as [|[obj w] d IH]; simpl; [done|].
  destruct (is_key k obj); [discriminate | exact IH].
Qed.

Lemma get_app_some {V} k (d d' : t V) v : get k d = Some v -> get k (d ++ d') = Some v.
Proof.
  induction d as [|[obj w] d IH]; simpl; [done|].
  destruct (is_key k obj); [done | exact IH].
Qed.

(** After [d[obj] = v] the key reads [v]. *)
Lemma get_set_eq {V} k obj (v : V) (d : t V) :
  hash obj = Ok k -> get k (set k obj v d) = Some v.
Proof.
  intros Hh. unfold set. destruct (get k d) eqn:E.
  - rewrite get_replace, bool_decide_eq_true_2 by done. by rewrite E.
  - rewrite get_app_none by done. simpl. by rewrite (is_key_hash _ _ Hh).
Qed.

(** Every other key reads what it read before. *)
Lemma get_set_ne {V} k k' obj (v : V) (d : t V) :
  hash obj = Ok k -> k' <> k -> get k' (set k obj v d) = get k' d.
Proof.
  intros Hh Hne. unfold set. destruct (get k d) eqn:E.
  - by rewrite get_replace, bool_decide_eq_false_2.
  - destruct (get k' d) eqn:E'.
    + by apply get_app_some.
    + rewrite get_app_none by done. simpl.
      by rewrite (is_key_other _ _ _ Hh Hne).
Qed.

(** After [del d[k]] the key is absent. *)
Lemma get_del_eq {V} k (d : t V) : get k (del k d) = None.
Proof.
  induction d as [|[obj w] d IH]; simpl; [done|].
  destruct (is_key k obj) eqn:E; simpl; [exact IH|]. by rewrite E.
Qed.

Lemma get_del_ne {V} k k' (d : t V) : k' <> k -> get k' (del k d) = get k' d.
Proof.
  intros Hne. induction d as [|[obj w] d IH]; simpl; [done|].
  destruct (is_key k obj) eqn:E; simpl.
  - apply is_key_true in E. by rewrite (is_key_other _ _ _ E Hne).
  - by rewrite IH.
Qed.

End DictFacts.

(** ** The authenticator *)

Lemma signed_request_ts ts : getitem (signed_request ts) "ts" = Ok (VInt ts).
Proof. reflexivity. Qed.

Lemma signed_request_sign ts :
  getitem (signed_request ts) "sign"
  = Ok (VStr (hmac_hexdigest passhash (encode (str ts)))).
Proof. reflexivity. Qed.

(** With the two clock readings kept apart: the lower bound is taken
    against the first, the upper bound against the second. *)
Lemma is_data_valid_true_iff (t1 t2 : Z) (data : value) :
  is_data_valid t1 t2 data = Ok true <->
  exists ts sign,
    getitem data "ts" = Ok (VInt ts) /\
    getitem data "sign" = Ok (VStr sign) /\
    t1 - 10 <= ts /\ ts <= t2 + 10 /\
    lower sign = hmac_hexdigest passhash (encode (str ts)).
Proof.
  unfold is_data_valid, rbind. split.
  - destruct (getitem data "ts") as [[| | n | | | |]|]; try discriminate.
    destruct (getitem data "sign") as [[| | | | s | |]|]; try discriminate.
    destruct (Z.leb_spec (t1 - 10) n); [|discriminate].
    destruct (Z.leb_spec n (t2 + 10)); [|discriminate].
    intros Hsig. apply Ok_inj, bool_decide_eq_true in Hsig.
    rewrite hmac_hexdigest_lower in Hsig.
    exists n, s. repeat split; try assumption. symmetry. exact Hsig.
  - intros (ts & sign & -> & -> & Hlo & Hhi & Hs).
    rewrite (proj2 (Z.leb_le _ _) Hlo), (proj2 (Z.leb_le _ _) Hhi).
    f_equal. apply bool_decide_eq_true. rewrite hmac_hexdigest_lower.
    symmetry. exact Hs.
Qed.

Lemma is_data_valid_signed (t1 t2 ts : Z) :
  is_data_valid t1 t2 (signed_request ts)
  = Ok ((t1 - 10 <=? ts) && (ts <=? t2 + 10)).
Proof.
  unfold is_data_valid, rbind.
  rewrite signed_request_ts, signed_request_sign.
  destruct (t1 - 10 <=? ts); [|reflexivity].
  destruct (ts <=? t2 + 10); [|reflexivity].
  simpl. f_equal. apply bool_decide_eq_true. reflexivity.
Qed.


(** [lower] against the comparison up to case. *)
Lemma all_ascii_complete c : In c all_ascii.
Proof.
  rewrite <- (ascii_nat_embedding c). apply in_map, in_seq.
  pose proof (nat_ascii_bounded c). lia.
Qed.

Lemma same_letter_lower c d : lower_char c = lower_char d <-> same_letter c d = true.
Proof.
  assert (H : forallb (fun x => forallb (fun y =>
                Bool.eqb (Ascii.eqb (lower_char x) (lower_char y)) (same_letter x y))
                all_ascii) all_ascii = true) by (vm_compute; reflexivity).
  rewrite forallb_forall in H. specialize (H c (all_ascii_complete c)).
  rewrite forallb_forall in H. specialize (H d (all_ascii_complete d)).
  apply Bool.eqb_prop in H. rewrite <- H. symmetry. apply Ascii.eqb_eq.
Qed.

Lemma equal_ignoring_case_lower s t :
  lower s = lower t <-> equal_ignoring_case s t = true.
Proof.
  revert t. induction s as [|c s IH]; intros [|d t]; simpl;
    [tauto | split; discriminate | split; discriminate |].
  rewrite andb_true_iff, <- same_letter_lower, <- IH. split.
  - intros H. injection H as H1 H2. by split.
  - intros [-> ->]. reflexivity.
Qed.

(** C1, with the clock read twice as the code reads it: [t1] is the
    reading the lower bound is taken from and [t2] the one of the upper
    bound.  [is_data_valid] answers [True] exactly when [ts] is an
    integer, [sign] a string, [t1 - 10 <= ts <= t2 + 10], and [sign]
    is, up to the case of its letters, the hexadecimal HMAC-SHA256,
    under [passhash], of the decimal text of [ts]; that digest is in
    lower case.  A correctly signed request is accepted or refused by
    the two bounds alone.  When both readings are the same second
    [now], it is accepted at [now - 10] and [now + 10] and refused at
    [now - 11] and [now + 11].  The check is a function of the request
    and the two readings: it neither reads nor changes the hub. *)
Theorem is_data_valid_window (t1 t2 : Z) (data : value) :
  (is_data_valid t1 t2 data = Ok true <->
   exists ts sign,
     getitem data "ts" = Ok (VInt ts) /\
     getitem data "sign" = Ok (VStr sign) /\
     t1 - 10 <= ts <= t2 + 10 /\
     equal_ignoring_case sign (hmac_hexdigest passhash (encode (str ts))) = true) /\
  (forall ts,
     lower (hmac_hexdigest passhash (encode (str ts)))
     = hmac_hexdigest passhash (encode (str ts))) /\
  (forall ts,
     is_data_valid t1 t2 (signed_request ts) = Ok ((t1 - 10 <=? ts) && (ts <=? t2 + 10))) /\
  (forall now,
     is_data_valid now now (signed_request (now - 10)) = Ok true /\
     is_data_valid now now (signed_request (now + 10)) = Ok true /\
     is_data_valid now now (signed_request (now - 11)) = Ok false /\
     is_data_valid now now (signed_request (now + 11)) = Ok false).
Proof.
  split; [|split; [|split]].
  - rewrite is_data_valid_true_iff. split.
    + intros (ts & sign & ? & ? & ? & ? & Hs). exists ts, sign.
      split; [assumption|]. split; [assumption|]. split; [by split|].
      apply equal_ignoring_case_lower. by rewrite hmac_hexdigest_lower.
    + intros (ts & sign & ? & ? & [? ?] & Hs). exists ts, sign.
      repeat (split; [assumption|]).
      apply equal_ignoring_case_lower in Hs. by rewrite hmac_hexdigest_lower in Hs.
  - intros ts. apply hmac_hexdigest_lower.
  - intros ts. apply is_data_valid_signed.
  - intros now. rewrite !is_data_valid_signed. repeat split; f_equal.
    + apply andb_true_intro. split; apply Z.leb_le; lia.
    + apply andb_true_intro. split; apply Z.leb_le; lia.
    + apply andb_false_intro1. apply Z.leb_gt. lia.
    + apply andb_false_intro2. apply Z.leb_gt. lia.
Qed.

(** C1 as stated, with one [now], fails when the second reading of the
    clock is a second after the first.  A correctly signed request
    with [ts] eleven seconds after the first reading is accepted, and
    so is one with [ts] eleven seconds before the second reading:
    whichever reading [now] is, a request at distance eleven passes. *)
Lemma is_data_valid_between_readings :
  is_data_valid 1700000000 1700000001 (signed_request (1700000000 + 11)) = Ok true /\
  is_data_valid 1700000000 1700000001 (signed_request (1700000001 - 11)) = Ok true.
Proof.
  rewrite !is_data_valid_signed. split; reflexivity.
Qed.

(** A request of the wire format, signed in capitals, at the clock
    reading 1700000000. *)
Example is_data_valid_capitals :
  is_data_valid 1700000000 1700000000
    (VDict [(VStr "ts", VInt 1700000000);
            (VStr "sign",
             VStr "E3AC0C85892F43099E12F507A31098351CFB0C7A4A9E1EDE093FEF91099A3F91");
            (VStr "type", VStr "control/devices")])
  = Ok true.
Proof. vm_compute. reflexivity. Qed.

(** A boolean or a float in [ts] is refused, a missing field raises. *)
Example is_data_valid_not_int :
  is_data_valid 1 1 (VDict [(VStr "ts", VBool true); (VStr "sign", VStr "")]) = Ok false
  /\ is_data_valid 1 1 (VDict [(VStr "ts", VFloat (FFinite false 1 0)); (VStr "sign", VStr "")]) = Ok false
  /\ is_data_valid 1 1 (VDict [(VStr "sign", VStr "")]) = Raise KeyError
  /\ is_data_valid 1 1 (VDict [(VStr "ts", VInt 1)]) = Raise KeyError.
Proof. repeat split; reflexivity. Qed.

(** ** The dispatcher *)

Ltac unfold_monad := unfold bind, lift, gets, modify, ret in *.


(** C7. A [control/*] message that does not pass [is_data_valid] is
    dropped: nothing is sent to any connection, the hub is what it was,
    and the loop goes on to the next message. *)
Theorem auth_failure_dropped (t1 t2 : Z) (websocket : conn) (data ty : value) (st : hub) :
  getitem data "type" = Ok ty ->
  is_control ty = true ->
  is_data_valid t1 t2 data <> Ok true ->
  process t1 t2 websocket data st = (st, []).
Proof.
  intros Hty Hctl Hbad.
  unfold process, dispatch, bind at 1, lift at 1. rewrite Hty.
  unfold is_control in Hctl.
  unfold control_devices, control_refresh, control_command, control_commands.
  unfold_monad.
  destruct (is_data_valid t1 t2 data) as [[|]|e] eqn:Hv; [by destruct Hbad| |];
    destruct (getitem data "ts");
    destruct (is_str ty "control/devices"); try reflexivity;
    destruct (is_str ty "control/refresh"); try reflexivity;
    destruct (is_str ty "control/command"); try reflexivity;
    destruct (is_str ty "control/commands"); try reflexivity;
    discriminate Hctl.
Qed.


Lemma has_controllers_false st : has_controllers st = false <-> controllers st = ∅.
Proof.
  unfold has_controllers. rewrite bool_decide_eq_false. split.
  - intros H. apply leibniz_equiv, size_empty_iff. lia.
  - intros ->. rewrite size_empty. lia.
Qed.

Lemma has_controllers_true st : has_controllers st = true <-> controllers st <> ∅.
Proof.
  rewrite <- has_controllers_false. destruct (has_controllers st); split; congruence.
Qed.

(** The [app/state] branch either raises before its first assignment or
    performs all three. *)
Lemma app_state_cases websocket data st :
  (exists e, app_state websocket data st = (st, Raise e)) \/
  (exists body system udid k,
      getitem data "body" = Ok body /\
      getitem body "system" = Ok system /\
      getitem system "udid" = Ok udid /\
      hash udid = Ok k /\
      app_state websocket data st = (registered_hub websocket udid k body st, Ok tt)).
Proof.
  unfold app_state, store_item, rbind. unfold_monad.
  destruct (getitem data "body") as [body|e] eqn:Hb; [|left; eauto].
  destruct (getitem body "system") as [system|e] eqn:Hs; [|left; eauto].
  destruct (getitem system "udid") as [udid|e] eqn:Hu; [|left; eauto].
  destruct (hash udid) as [k|e] eqn:Hk; [|left; eauto].
  right. exists body, system, udid, k. simpl. rewrite Hk. by destruct st.
Qed.

Lemma getitem_is_dict data name v :
  getitem data name = Ok v -> exists entries, data = VDict entries.
Proof. destruct data; try discriminate. eauto. Qed.





(** ** The registry *)

Lemma same_registry_refl st : same_registry st st.
Proof. by repeat split. Qed.

Lemma same_registry_controllers f st : same_registry st (with_controllers f st).
Proof. by repeat split. Qed.

Create HintDb hub.
#[local] Hint Resolve same_registry_refl same_registry_controllers : hub.

Ltac control_branch :=
  unfold control_devices, control_refresh, control_command, control_commands;
  unfold_monad;
  repeat match goal with
         | |- context [match ?r with Ok _ => _ | Raise _ => _ end] =>
             lazymatch r with
             | is_data_valid _ _ _ => destruct r as [[|]|]
             | _ => destruct r
             end; simpl
         end;
  auto with hub.

Lemma control_devices_registry t1 t2 websocket data st :
  same_registry st (control_devices t1 t2 websocket data st).1.
Proof. control_branch. Qed.

Lemma control_refresh_registry t1 t2 websocket data st :
  same_registry st (control_refresh t1 t2 websocket data st).1.
Proof. control_branch. Qed.

Lemma control_command_registry t1 t2 websocket data st :
  same_registry st (control_command t1 t2 websocket data st).1.
Proof. control_branch. Qed.

Lemma control_commands_registry t1 t2 websocket data st :
  same_registry st (control_commands t1 t2 websocket data st).1.
Proof. control_branch. Qed.

Lemma relay_state websocket data st : (relay websocket data st).1 = st.
Proof.
  unfold relay. unfold_monad. simpl. destruct (has_controllers st); [|done].
  destruct (device_links_map st !! websocket) as [udid|]; [|done].
  by destruct (setitem data "udid" udid).
Qed.

(** What a message does to the registry: nothing, or one registration
    of the sender. *)
Lemma dispatch_registry t1 t2 websocket data st st' r :
  dispatch t1 t2 websocket data st = (st', r) ->
  same_registry st st' \/
  exists udid k body, hash udid = Ok k /\ st' = registered_hub websocket udid k body st.
Proof.
  unfold dispatch, bind at 1, lift at 1.
  destruct (getitem data "type") as [ty|];
    [|intros [= <- _]; left; apply same_registry_refl].
  destruct (is_str ty "control/devices").
  { intros H. left. pose proof (control_devices_registry t1 t2 websocket data st) as Hr.
    by rewrite H in Hr. }
  destruct (is_str ty "control/refresh").
  { intros H. left. pose proof (control_refresh_registry t1 t2 websocket data st) as Hr.
    by rewrite H in Hr. }
  destruct (is_str ty "control/command").
  { intros H. left. pose proof (control_command_registry t1 t2 websocket data st) as Hr.
    by rewrite H in Hr. }
  destruct (is_str ty "control/commands").
  { intros H. left. pose proof (control_commands_registry t1 t2 websocket data st) as Hr.
    by rewrite H in Hr. }
  unfold bind. destruct (is_str ty "app/state").
  - destruct (app_state_cases websocket data st)
      as [[e ->] | (body & system & udid & k & _ & _ & _ & Hk & ->)].
    + intros [= <- _]. left. apply same_registry_refl.
    + intros H. right. exists udid, k, body. split; [done|].
      pose proof (relay_state websocket data (registered_hub websocket udid k body st)) as Hr.
      by rewrite H in Hr.
  - unfold ret. intros H. left.
    pose proof (relay_state websocket data st) as Hr. rewrite H in Hr. simpl in Hr.
    subst st'. apply same_registry_refl.
Qed.

Lemma process_registry t1 t2 websocket data st st' out :
  process t1 t2 websocket data st = (st', out) ->
  same_registry st st' \/
  exists udid k body, hash udid = Ok k /\ st' = registered_hub websocket udid k body st.
Proof.
  unfold process.
  destruct (dispatch t1 t2 websocket data st) as [st0 r] eqn:Hd.
  intros H.
  assert (st' = st0) as -> by (destruct r; congruence).
  apply (dispatch_registry _ _ _ _ _ _ _ Hd).
Qed.

Lemma registered_hub_agrees websocket udid k body st :
  registry_agrees st -> registry_agrees (registered_hub websocket udid k body st).
Proof. unfold registry_agrees. simpl. apply DictFacts.keys_set. Qed.

Lemma same_registry_agrees st st' :
  same_registry st st' -> registry_agrees st -> registry_agrees st'.
Proof. unfold registry_agrees. intros (-> & -> & _). done. Qed.

Lemma process_agrees t1 t2 websocket data st :
  registry_agrees st -> registry_agrees (process t1 t2 websocket data st).1.
Proof.
  intros Hst. destruct (process t1 t2 websocket data st) as [st' out] eqn:Hp.
  destruct (process_registry _ _ _ _ _ _ _ Hp) as [Hs | (udid & k & body & _ & ->)].
  - by apply (same_registry_agrees st).
  - by apply registered_hub_agrees.
Qed.

(** The close handler on a device: both deletions succeed when both
    entries are there. *)
Lemma on_close_device websocket udid k st :
  websocket ∉ controllers st ->
  device_links_map st !! websocket = Some udid ->
  hash udid = Ok k ->
  is_Some (Dict.get k (device_table st)) ->
  is_Some (Dict.get k (device_links st)) ->
  on_close websocket st
  = (unregistered_hub websocket k st,
     if has_controllers st then to_controllers (device_disconnect udid) st else []).
Proof.
  intros Hc Hm Hk [body Hb] [dev Hd].
  unfold on_close, connection_closed. unfold_monad. simpl.
  rewrite bool_decide_eq_false_2 by done. rewrite Hm.
  unfold del_item, rbind. rewrite Hk, Hb. simpl. rewrite Hd. simpl.
  change (has_controllers _) with (has_controllers st).
  by destruct (has_controllers st).
Qed.

(** A reverse entry whose udid has no payload left: [del
    device_table[udid]] raises [KeyError], the handler is left and
    nothing has been deleted or sent. *)
Lemma on_close_without_record websocket udid k st :
  websocket ∉ controllers st ->
  device_links_map st !! websocket = Some udid ->
  hash udid = Ok k ->
  Dict.get k (device_table st) = None ->
  connection_closed websocket st = (st, Raise KeyError) /\
  on_close websocket st = (st, []).
Proof.
  intros Hc Hm Hk Hb.
  assert (H : connection_closed websocket st = (st, Raise KeyError)).
  { unfold connection_closed. unfold_monad. simpl.
    rewrite bool_decide_eq_false_2 by done. rewrite Hm.
    unfold del_item, rbind. by rewrite Hk, Hb. }
  split; [exact H|]. unfold on_close. by rewrite H.
Qed.

Lemma on_close_agrees websocket st :
  registry_agrees st -> registry_agrees (on_close websocket st).1.
Proof.
  intros Hst. unfold on_close, connection_closed. unfold_monad. simpl.
  case_bool_decide; [done|].
  destruct (device_links_map st !! websocket) as [udid|]; [|done].
  unfold del_item, rbind.
  destruct (hash udid) as [k|]; [|done].
  destruct (Dict.get k (device_table st)) eqn:Hb; [|done]. simpl.
  destruct (Dict.get k (device_links st)) eqn:Hd.
  - assert (registry_agrees (unregistered_hub websocket k st)) as Hu.
    { unfold registry_agrees in *. simpl. by rewrite !DictFacts.keys_del, Hst. }
    simpl. change (has_controllers _) with (has_controllers st).
    by destruct (has_controllers st).
  - assert (is_Some (Dict.get k (device_links st))) as [? ?]; [|congruence].
    apply (DictFacts.get_some_keys k (device_table st)); [done | eauto].
Qed.

Section Runs.

Variable json_loads : nat -> string -> loaded.

Lemma step_agrees ev st :
  registry_agrees st -> registry_agrees (step json_loads ev st).1.
Proof.
  intros Hst.
  destruct ev as [websocket serial t1 t2 [payload|raw] | websocket | websocket]; simpl.
  - done.
  - destruct (json_loads serial raw); [by apply process_agrees | done | done].
  - by apply on_close_agrees.
  - done.
Qed.

Lemma on_message_agrees serial t1 t2 websocket message st :
  registry_agrees st ->
  registry_agrees (on_message json_loads serial t1 t2 websocket message st).1.
Proof. apply (step_agrees (Message websocket serial t1 t2 message)). Qed.

Lemma handle_frames_agrees websocket frames st :
  registry_agrees st ->
  registry_agrees (handle_frames json_loads websocket frames st).1.1.
Proof.
  revert st. induction frames as [|[[[serial t1] t2] message] frames IH];
    intros st Hst; simpl; [done|].
  pose proof (on_message_agrees serial t1 t2 websocket message st Hst) as Hm.
  destruct (on_message json_loads serial t1 t2 websocket message st) as [st' out].
  destruct (handler_survives json_loads serial message); [|done].
  specialize (IH st' Hm).
  by destruct (handle_frames json_loads websocket frames st') as [[st'' out'] alive].
Qed.

Lemma run_agrees evs st :
  registry_agrees st -> registry_agrees (run json_loads evs st).1.
Proof.
  revert st. induction evs as [|ev evs IH]; intros st Hst; simpl; [done|].
  pose proof (step_agrees ev st Hst) as Hstep.
  destruct (step json_loads ev st) as [st' out].
  specialize (IH st' Hstep).
  by destruct (run json_loads evs st') as [st'' out'].
Qed.

Lemma handle_connection_agrees websocket frames how st :
  registry_agrees st ->
  registry_agrees (handle_connection json_loads websocket frames how st).1.
Proof.
  intros Hst. unfold handle_connection.
  pose proof (handle_frames_agrees websocket frames st Hst) as Hf.
  destruct (handle_frames json_loads websocket frames st) as [[st' out] alive].
  destruct alive; [|done]. destruct how; [|done].
  pose proof (on_close_agrees websocket st' Hf) as Hc.
  by destruct (on_close websocket st') as [st'' out'].
Qed.

(** C3. After any sequence of messages and closed connections, the
    udids that have a connection in [device_links] are the udids that
    have a payload in [device_table]: an [app/state] message stores
    both, the close handler deletes both. *)
Theorem registry_keys_agree (evs : list event) :
  let st := (run json_loads evs empty_hub).1 in
  Dict.keys (device_links st) = Dict.keys (device_table st) /\
  forall k, is_Some (Dict.get k (device_links st))
            <-> is_Some (Dict.get k (device_table st)).
Proof.
  intros st.
  assert (Hst : registry_agrees st) by (by apply run_agrees).
  split; [exact Hst|]. intros k. split.
  - by apply DictFacts.get_some_keys.
  - by apply DictFacts.get_some_keys.
Qed.

End Runs.

(** ** Closed connections *)

Lemma to_controllers_none payload st :
  has_controllers st = false -> to_controllers payload st = [].
Proof.
  intros H. apply has_controllers_false in H.
  unfold to_controllers. by rewrite H, elements_empty.
Qed.

Lemma to_controllers_targets payload st :
  map fst (to_controllers payload st) = elements (controllers st).
Proof.
  unfold to_controllers. rewrite map_map. simpl. apply map_id.
Qed.

(** The handler of [ConnectionClosed] for a connection outside the
    controllers whose udid has its forward entry and its payload: the
    two and the reverse entry of the connection are deleted, and every
    controller, if there is one, is sent [device/disconnect] with that
    udid exactly once and nobody else is sent anything. *)
Lemma on_close_registered (websocket : conn) (udid : value) (k : key) (st : hub) :
  websocket ∉ controllers st ->
  device_links_map st !! websocket = Some udid ->
  hash udid = Ok k ->
  is_Some (Dict.get k (device_links st)) ->
  is_Some (Dict.get k (device_table st)) ->
  exists st' out,
    on_close websocket st = (st', out) /\
    Dict.get k (device_links st') = None /\
    Dict.get k (device_table st') = None /\
    device_links_map st' !! websocket = None /\
    controllers st' = controllers st /\
    out = map (fun c => (c, VDict [(VStr "type", VStr "device/disconnect");
                                   (VStr "body", udid)]))
              (elements (controllers st)) /\
    NoDup (map fst out) /\
    (forall c, c ∈ map fst out <-> c ∈ controllers st).
Proof.
  intros Hc Hm Hk Hd Hb.
  exists (unregistered_hub websocket k st),
         (to_controllers (device_disconnect udid) st).
  split.
  { rewrite (on_close_device _ _ _ _ Hc Hm Hk Hb Hd).
    destruct (has_controllers st) eqn:E; [done|]. by rewrite to_controllers_none. }
  simpl. rewrite !DictFacts.get_del_eq, lookup_delete_eq, to_controllers_targets.
  repeat (split; [done|]). split; [apply NoDup_elements|].
  intros c. apply elem_of_elements.
Qed.

(** The handler of [ConnectionClosed] for a controller: it leaves the
    controller set, so no later broadcast goes to it; the three
    dictionaries of the registry are untouched and nothing is sent. *)
Lemma on_close_controller (websocket : conn) (st : hub) :
  websocket ∈ controllers st ->
  exists st',
    on_close websocket st = (st', []) /\
    controllers st' = controllers st ∖ {[websocket]} /\
    (websocket ∉ controllers st') /\
    device_table st' = device_table st /\
    device_links st' = device_links st /\
    device_links_map st' = device_links_map st /\
    forall payload, websocket ∉ map fst (to_controllers payload st').
Proof.
  intros Hc. exists (with_controllers (fun cs => cs ∖ {[websocket]}) st).
  split.
  { unfold on_close, connection_closed. unfold_monad. simpl.
    by rewrite bool_decide_eq_true_2. }
  simpl. repeat split; try done.
  - rewrite elem_of_difference, elem_of_singleton. tauto.
  - intros payload. rewrite to_controllers_targets, elem_of_elements. simpl.
    rewrite elem_of_difference, elem_of_singleton. tauto.
Qed.

Ltac evaluated := vm_compute; reflexivity.

Ltac not_member := apply (bool_decide_unpack _); vm_compute; exact I.

(** C6, against the code.  The cleanup of a device is the handler of
    [ConnectionClosed]; it runs when the loop of the connection ends
    by that exception and not when the loop runs out of messages, as
    it does when the peer closes with code 1000 or 1001.  The sample
    device reports on connection 1 while controllers 2 and 3 listen.
    If its loop ends by the exception, its three entries are deleted
    and each controller is sent [device/disconnect] for [dev-1] once.
    If its loop runs out, nothing is deleted and nobody is told: the
    hub stays [hub_full], where a [control/devices] reply lists
    [dev-1] and a command for [dev-1] is written to the closed
    connection.  And if the exception is raised for a connection whose
    reverse entry names a udid without a payload, as connection 4 in
    [hub_orphan], [del device_table[udid]] raises [KeyError]: the
    reverse entry stays and nobody is told. *)
Theorem device_close :
  let loads := loads_traffic in
  let frames := [(0%nat, sample_now, sample_now, Text text_state)] in
  let notice :=
    VDict [(VStr "type", VStr "device/disconnect"); (VStr "body", VStr "dev-1")] in
  handle_connection loads 1%nat frames Raised hub_controllers
  = (hub_controllers,
     [(2%nat, sample_state_relayed); (3%nat, sample_state_relayed);
      (2%nat, notice); (3%nat, notice)]) /\
  handle_connection loads 1%nat frames Exhausted hub_controllers
  = (hub_full, [(2%nat, sample_state_relayed); (3%nat, sample_state_relayed)]) /\
  (forall json_loads websocket st,
     handle_connection json_loads websocket [] Exhausted st = (st, [])) /\
  registered_as hub_full 1%nat (VStr "dev-1") /\
  lookup_item (device_table hub_full) (VStr "dev-1") = Ok sample_payload /\
  (process sample_now sample_now 2%nat sample_devices_request hub_full).2
  = [(2%nat, sample_devices_reply)] /\
  (process sample_now sample_now 2%nat (sample_command ["dev-1"]) hub_full).2
  = [(1%nat, command_message (VStr "touch/down") sample_touch)] /\
  (on_close 1%nat (process sample_now sample_now 4%nat sample_state hub_full).1).1
  = hub_orphan /\
  (4%nat ∉ controllers hub_orphan) /\
  device_links_map hub_orphan !! 4%nat = Some (VStr "dev-1") /\
  handle_connection loads 4%nat [] Raised hub_orphan = (hub_orphan, []).
Proof.
  intros loads frames notice.
  split; [evaluated|]. split; [evaluated|]. split; [reflexivity|].
  split; [split; reflexivity|]. split; [reflexivity|].
  split; [evaluated|]. split; [evaluated|]. split; [evaluated|].
  split; [not_member|]. split; [reflexivity | evaluated].
Qed.

(** C9, against the code.  A controller leaves [controllers] in the
    handler of [ConnectionClosed], hence only when its loop ends by
    that exception.  Connection 2 signs in with [control/devices]
    while the sample device is registered.  If its loop ends by the
    exception, the hub is what it was before connection 2 came and
    nothing is sent but the reply.  If its loop runs out of messages,
    as on a close with code 1000 or 1001, connection 2 stays in
    [controllers]: the next message of the device is relayed to it,
    and so is the [device/disconnect] of the device. *)
Theorem controller_close :
  let loads := loads_traffic in
  let frames := [(0%nat, sample_now, sample_now, Text text_devices)] in
  handle_connection loads 2%nat frames Raised hub_device
  = (hub_device, [(2%nat, sample_devices_reply)]) /\
  handle_connection loads 2%nat frames Exhausted hub_device
  = (hub_watched, [(2%nat, sample_devices_reply)]) /\
  (forall json_loads websocket st,
     handle_connection json_loads websocket [] Exhausted st = (st, [])) /\
  2%nat ∈ controllers hub_watched /\
  process sample_now sample_now 1%nat sample_log hub_watched
  = (hub_watched, [(2%nat, sample_log_relayed)]) /\
  (on_close 1%nat hub_watched).2
  = [(2%nat, VDict [(VStr "type", VStr "device/disconnect"); (VStr "body", VStr "dev-1")])].
Proof.
  intros loads frames.
  split; [evaluated|]. split; [evaluated|]. split; [reflexivity|].
  split; [not_member|]. split; evaluated.
Qed.

(** C10, as the code has it.  Let [c1], outside the controllers, hold
    the record of a udid and [c2], another connection, send
    [app/state] with a udid that is the same dictionary key.  The
    forward entry and the payload now belong to [c2], and the reverse
    map has both [c1] and [c2] under the udid.  If the loop of [c1]
    then ends by [ConnectionClosed], the forward entry and the payload
    of the udid are deleted and the controllers are told that the udid
    disconnected: [c2] is still open and keeps its reverse entry, but
    the udid leads to it no more.  The entries of every other udid,
    in [device_links] and [device_table], and the reverse entries of
    every other connection are what they were before [c2] reported. *)
Theorem stale_reverse_entry (t1 t2 : Z) (c1 c2 : conn) (udid1 udid2 : value) (k : key)
    (data body system : value) (st : hub) :
  c1 <> c2 ->
  c1 ∉ controllers st ->
  hash udid1 = Ok k ->
  hash udid2 = Ok k ->
  registered_as st c1 udid1 ->
  getitem data "type" = Ok (VStr "app/state") ->
  getitem data "body" = Ok body ->
  getitem body "system" = Ok system ->
  getitem system "udid" = Ok udid2 ->
  let st1 := (process t1 t2 c2 data st).1 in
  let st2 := (on_close c1 st1).1 in
  (Dict.get k (device_links st1) = Some c2 /\
   Dict.get k (device_table st1) = Some body /\
   device_links_map st1 !! c1 = Some udid1 /\
   device_links_map st1 !! c2 = Some udid2) /\
  (Dict.get k (device_links st2) = None /\
   Dict.get k (device_table st2) = None /\
   device_links_map st2 !! c1 = None /\
   device_links_map st2 !! c2 = Some udid2 /\
   lookup_item (device_links st2) udid2 = Raise KeyError /\
   lookup_item (device_table st2) udid2 = Raise KeyError) /\
  (forall k', k' <> k ->
     Dict.get k' (device_links st2) = Dict.get k' (device_links st) /\
     Dict.get k' (device_table st2) = Dict.get k' (device_table st)) /\
  (forall other, other <> c1 -> other <> c2 ->
     device_links_map st2 !! other = device_links_map st !! other) /\
  controllers st2 = controllers st /\
  (on_close c1 st1).2
  = map (fun c => (c, VDict [(VStr "type", VStr "device/disconnect");
                             (VStr "body", udid1)]))
        (elements (controllers st)).
Proof.
  intros Hne Hc1 Hk1 Hk2 [Hm1 Hl1] Hty Hbody Hsys Hudid st1 st2.
  assert (Hst1 : st1 = registered_hub c2 udid2 k body st).
  { subst st1. unfold process, dispatch, bind at 1, lift at 1. rewrite Hty.
    change (is_str (VStr "app/state") "control/devices") with false.
    change (is_str (VStr "app/state") "control/refresh") with false.
    change (is_str (VStr "app/state") "control/command") with false.
    change (is_str (VStr "app/state") "control/commands") with false.
    change (is_str (VStr "app/state") "app/state") with true.
    cbv iota. unfold bind.
    destruct (app_state_cases c2 data st)
      as [[e He] | (body' & system' & udid' & k' & Hb' & Hs' & Hu' & Hk' & He)].
    - exfalso. revert He. unfold app_state, store_item, rbind. unfold_monad.
      rewrite Hbody, Hsys, Hudid, Hk2. simpl. rewrite ?Hk2. discriminate.
    - rewrite He. cbv beta iota.
      assert (body' = body) as -> by congruence.
      assert (system' = system) as -> by congruence.
      assert (udid' = udid2) as -> by congruence.
      assert (k' = k) as -> by congruence.
      pose proof (relay_state c2 data (registered_hub c2 udid2 k body st)) as Hr.
      destruct (relay c2 data (registered_hub c2 udid2 k body st)) as [s [?|?]];
        simpl in *; congruence. }
  assert (Hfirst : Dict.get k (device_links st1) = Some c2 /\
                   Dict.get k (device_table st1) = Some body /\
                   device_links_map st1 !! c1 = Some udid1 /\
                   device_links_map st1 !! c2 = Some udid2).
  { rewrite Hst1. simpl. rewrite !DictFacts.get_set_eq by done.
    rewrite lookup_insert_ne by done. rewrite lookup_insert_eq. done. }
  split; [exact Hfirst|].
  destruct Hfirst as (Hl & Hb & Hr1 & Hr2).
  assert (Hclose : on_close c1 st1
                   = (unregistered_hub c1 k st1,
                      if has_controllers st1
                      then to_controllers (device_disconnect udid1) st1 else [])).
  { apply on_close_device; eauto. by rewrite Hst1. }
  assert (Hst2 : st2 = unregistered_hub c1 k st1) by (subst st2; by rewrite Hclose).
  split; [|split; [|split; [|split]]].
  - rewrite Hst2. unfold lookup_item, rbind. rewrite Hk2. simpl.
    rewrite !DictFacts.get_del_eq, lookup_delete_eq.
    rewrite lookup_delete_ne by done. done.
  - intros k' Hk'. rewrite Hst2, Hst1. simpl.
    rewrite !DictFacts.get_del_ne by done.
    by rewrite !(DictFacts.get_set_ne k k' udid2).
  - intros other H1 H2. rewrite Hst2, Hst1. simpl.
    rewrite lookup_delete_ne by done. by rewrite lookup_insert_ne.
  - by rewrite Hst2, Hst1.
  - rewrite Hclose, Hst1. cbn [snd].
    change (has_controllers _) with (has_controllers st).
    destruct (has_controllers st) eqn:E; [reflexivity|].
    apply has_controllers_false in E. by rewrite E, elements_empty.
Qed.

(** C10 as stated fails in its last words.  In [hub_two_devices]
    connection 4 holds [dev-2].  It then reports as [dev-1], which
    connection 1 holds, and the loop of connection 1 ends by
    [ConnectionClosed].  Connection 4 is still the device of [dev-2]:
    the forward entry and the payload of [dev-2] are there, the reply
    to [control/devices] lists it and a command for [dev-2] is written
    to connection 4. *)
Lemma takeover_keeps_other_udid :
  let st1 := (process sample_now sample_now 4%nat sample_state hub_two_devices).1 in
  let st2 := (on_close 1%nat st1).1 in
  registered_as hub_two_devices 1%nat (VStr "dev-1") /\
  (1%nat ∉ controllers hub_two_devices) /\
  lookup_item (device_links st1) (VStr "dev-1") = Ok 4%nat /\
  device_links_map st1 !! 1%nat = Some (VStr "dev-1") /\
  device_links_map st1 !! 4%nat = Some (VStr "dev-1") /\
  lookup_item (device_links st2) (VStr "dev-1") = Raise KeyError /\
  lookup_item (device_links st2) (VStr "dev-2") = Ok 4%nat /\
  lookup_item (device_table st2) (VStr "dev-2")
  = Ok (VDict [(VStr "system", VDict [(VStr "udid", VStr "dev-2")])]) /\
  (process sample_now sample_now 2%nat sample_devices_request st2).2
  = [(2%nat,
      VDict [(VStr "type", VStr "control/devices");
             (VStr "body",
              VDict [(VStr "dev-2",
                      VDict [(VStr "system", VDict [(VStr "udid", VStr "dev-2")])])])])] /\
  (process sample_now sample_now 2%nat (sample_command ["dev-2"]) st2).2
  = [(4%nat, command_message (VStr "touch/down") sample_touch)].
Proof.
  intros st1 st2.
  split; [split; evaluated|]. split; [not_member|].
  split; [evaluated|]. split; [evaluated|]. split; [evaluated|].
  split; [evaluated|]. split; [evaluated|]. split; [evaluated|].
  split; evaluated.
Qed.

(** ** Sample traffic *)

Example hub_device_reached :
  (process 0 0 1%nat sample_state empty_hub).1 = hub_device.
Proof. vm_compute. reflexivity. Qed.

Example hub_full_reached :
  (process sample_now sample_now 3%nat sample_devices_request
     (process sample_now sample_now 2%nat sample_devices_request hub_device).1).1
  = hub_full.
Proof. vm_compute. reflexivity. Qed.

(** ** Text that is not JSON, and JSON that is not a message *)

Section Decoding.

Variable json_loads : nat -> string -> loaded.

(** C8, as the handler has it.  A text frame that [json.loads] rejects
  is answered to the sender alone with a message of type [error] whose
  body is the text received; the hub is unchanged and the loop goes on
  to the next frame. *)
Theorem bad_json_reply (serial : nat) (t1 t2 : Z) (websocket : conn) (raw : string)
  (st : hub) :
json_loads serial raw = JSONDecodeError ->
on_message json_loads serial t1 t2 websocket (Text raw) st
= (st, [(websocket, bad_json raw)]) /\
getitem (bad_json raw) "type" = Ok (VStr "error") /\
getitem (bad_json raw) "body" = Ok (VStr raw) /\
handler_survives json_loads serial (Text raw) = true.
Proof.
intros Hbad. unfold on_message, handler_survives. rewrite Hbad.
repeat split; reflexivity.
Qed.

(** A document without a [type] is dropped by the [except] of the inner
  [try]: no reply, no change. *)
Lemma missing_type_dropped (serial : nat) (t1 t2 : Z) (websocket : conn) (raw : string)
  (data : value) (e : exn) (st : hub) :
json_loads serial raw = Loaded data ->
getitem data "type" = Raise e ->
on_message json_loads serial t1 t2 websocket (Text raw) st = (st, []).
Proof.
intros Hd Hty. unfold on_message. rewrite Hd.
unfold process, dispatch, bind, lift. by rewrite Hty.
Qed.

(** A binary frame is skipped. *)
Lemma binary_frame_ignored (serial : nat) (t1 t2 : Z) (websocket : conn)
  (payload : list Z) (st : hub) :
on_message json_loads serial t1 t2 websocket (Binary payload) st = (st, []) /\
handler_survives json_loads serial (Binary payload) = true.
Proof. split; reflexivity. Qed.

(** A text on which [json.loads] raises something else than
  [JSONDecodeError] ends the handler of the connection: nothing is
  sent, nothing is changed, and the frames that follow are not read. *)
Lemma other_error_ends_handler (websocket : conn) (serial : nat) (t1 t2 : Z)
  (raw : string) (rest : list (nat * Z * Z * frame)) (how : ending) (st : hub) :
json_loads serial raw = OtherError ->
handle_connection json_loads websocket ((serial, t1, t2, Text raw) :: rest) how st
= (st, []).
Proof.
intros Hd. unfold handle_connection. simpl. by rewrite Hd.
Qed.

End Decoding.

(** C8, as stated, fails on structure: the texts of the empty object
    and of the empty list are JSON, neither is a message of the
    protocol, and neither gets a reply. *)
Lemma well_formed_json_no_reply :
  loads_sample 0 "{}" = Loaded (VDict []) /\
  loads_sample 0 "[]" = Loaded (VList []) /\
  on_message loads_sample 0 0 0 1%nat (Text "{}") empty_hub = (empty_hub, []) /\
  on_message loads_sample 0 0 0 1%nat (Text "[]") empty_hub = (empty_hub, []) /\
  ~ exists raw reply,
      (raw = "{}" \/ raw = "[]") /\
      In (1%nat, reply) (on_message loads_sample 0 0 0 1%nat (Text raw) empty_hub).2.
Proof.
  assert (Hobj : on_message loads_sample 0 0 0 1%nat (Text "{}") empty_hub
                 = (empty_hub, [])) by reflexivity.
  assert (Hlist : on_message loads_sample 0 0 0 1%nat (Text "[]") empty_hub
                  = (empty_hub, [])) by reflexivity.
  split; [reflexivity|]. split; [reflexivity|].
  split; [exact Hobj|]. split; [exact Hlist|].
  intros (raw & reply & [-> | ->] & Hin).
  - rewrite Hobj in Hin. destruct Hin.
  - rewrite Hlist in Hin. destruct Hin.
Qed.

(** ** Commands to udids that are not registered *)

Lemma collect_raises {A B} (f : A -> result (list B)) (l : list A) (a : A) :
  In a l -> (exists e, f a = Raise e) -> exists e, collect f l = Raise e.
Proof.
  intros Hin [e He]. induction l as [|b l IH]; [destruct Hin|].
  simpl. unfold rbind. destruct Hin as [-> | Hin].
  - rewrite He. eauto.
  - destruct (f b); [|eauto]. destruct (IH Hin) as [e' ->]. eauto.
Qed.

(** One udid of [body.devices] without a connection makes the
    comprehension of [control/command] raise [KeyError]: the sender has
    become a controller and no device is sent anything. *)
Lemma command_unknown_udid (t1 t2 : Z) (websocket : conn) (data body : value)
    (udids : list value) (udid : value) (k : key) (st : hub) :
  getitem data "type" = Ok (VStr "control/command") ->
  is_data_valid t1 t2 data = Ok true ->
  getitem data "body" = Ok body ->
  getitem body "devices" = Ok (VList udids) ->
  In udid udids ->
  hash udid = Ok k ->
  Dict.get k (device_links st) = None ->
  process t1 t2 websocket data st = (with_controllers (union {[websocket]}) st, []).
Proof.
  intros Hty Hv Hb Hd Hin Hk Hnone.
  unfold process, dispatch, bind at 1, lift at 1. rewrite Hty.
  change (is_str (VStr "control/command") "control/devices") with false.
  change (is_str (VStr "control/command") "control/refresh") with false.
  change (is_str (VStr "control/command") "control/command") with true.
  cbv iota. unfold control_command. unfold_monad. rewrite Hv. simpl.
  rewrite Hb, Hd. simpl.
  destruct (collect_raises (command_send (device_links st) body) udids udid Hin)
    as [e ->]; [|reflexivity].
  unfold command_send, lookup_item, rbind. rewrite Hk, Hnone. eauto.
Qed.

(** C2 at a concrete request.  The hub knows [dev-1] on connection 1 and
    no [ghost].  A signed [control/command] for [dev-1] alone reaches
    connection 1; the same command for [dev-1] and [ghost], and the
    [control/commands] form of it, reach nobody. *)
Theorem command_with_unknown_udid :
  is_data_valid sample_now sample_now (sample_command ["dev-1"; "ghost"]) = Ok true /\
  lookup_item (device_links hub_device) (VStr "dev-1") = Ok 1%nat /\
  lookup_item (device_links hub_device) (VStr "ghost") = Raise KeyError /\
  (process sample_now sample_now 2%nat (sample_command ["dev-1"]) hub_device).2
  = [(1%nat, VDict [(VStr "type", VStr "touch/down"); (VStr "body", sample_touch)])] /\
  (process sample_now sample_now 2%nat (sample_command ["dev-1"; "ghost"]) hub_device).2
  = [] /\
  (process sample_now sample_now 2%nat (sample_commands ["dev-1"]) hub_device).2
  = [(1%nat, VDict [(VStr "type", VStr "touch/down"); (VStr "body", sample_touch)]);
     (1%nat, VDict [(VStr "type", VStr "touch/up"); (VStr "body", sample_touch)])] /\
  (process sample_now sample_now 2%nat (sample_commands ["dev-1"; "ghost"]) hub_device).2
  = [].
Proof. vm_compute. repeat split. Qed.

(** ** The theorems at the sample traffic *)

(** A forged [control/refresh] is dropped. *)
Lemma auth_failure_dropped_witness :
  getitem sample_forged_request "type" = Ok (VStr "control/refresh") /\
  is_control (VStr "control/refresh") = true /\
  is_data_valid sample_now sample_now sample_forged_request <> Ok true /\
  process sample_now sample_now 2%nat sample_forged_request hub_device = (hub_device, []).
Proof.
  assert (H1 : getitem sample_forged_request "type" = Ok (VStr "control/refresh"))
    by reflexivity.
  assert (H2 : is_control (VStr "control/refresh") = true) by reflexivity.
  assert (H3 : is_data_valid sample_now sample_now sample_forged_request <> Ok true).
  { vm_compute. intros H. discriminate H. }
  split; [exact H1|]. split; [exact H2|]. split; [exact H3|].
  exact (auth_failure_dropped sample_now sample_now 2%nat sample_forged_request
           (VStr "control/refresh") hub_device H1 H2 H3).
Defined.



(** Connection 4 reports as [dev-1], which connection 1 holds; then
    connection 1 closes. *)
Lemma stale_reverse_entry_witness :
  1%nat <> 4%nat /\
  (1%nat ∉ controllers hub_full) /\
  hash (VStr "dev-1") = Ok (KStr "dev-1") /\
  registered_as hub_full 1%nat (VStr "dev-1") /\
  getitem sample_state "type" = Ok (VStr "app/state") /\
  getitem sample_state "body" = Ok sample_payload /\
  getitem sample_payload "system" = Ok (VDict [(VStr "udid", VStr "dev-1")]) /\
  getitem (VDict [(VStr "udid", VStr "dev-1")]) "udid" = Ok (VStr "dev-1") /\
  let st1 := (process sample_now sample_now 4%nat sample_state hub_full).1 in
  let st2 := (on_close 1%nat st1).1 in
  (Dict.get (KStr "dev-1") (device_links st1) = Some 4%nat /\
   Dict.get (KStr "dev-1") (device_table st1) = Some sample_payload /\
   device_links_map st1 !! 1%nat = Some (VStr "dev-1") /\
   device_links_map st1 !! 4%nat = Some (VStr "dev-1")) /\
  (Dict.get (KStr "dev-1") (device_links st2) = None /\
   Dict.get (KStr "dev-1") (device_table st2) = None /\
   device_links_map st2 !! 1%nat = None /\
   device_links_map st2 !! 4%nat = Some (VStr "dev-1") /\
   lookup_item (device_links st2) (VStr "dev-1") = Raise KeyError /\
   lookup_item (device_table st2) (VStr "dev-1") = Raise KeyError) /\
  (forall k', k' <> KStr "dev-1" ->
     Dict.get k' (device_links st2) = Dict.get k' (device_links hub_full) /\
     Dict.get k' (device_table st2) = Dict.get k' (device_table hub_full)) /\
  (forall other, other <> 1%nat -> other <> 4%nat ->
     device_links_map st2 !! other = device_links_map hub_full !! other) /\
  controllers st2 = controllers hub_full /\
  (on_close 1%nat st1).2
  = map (fun c => (c, VDict [(VStr "type", VStr "device/disconnect");
                             (VStr "body", VStr "dev-1")]))
        (elements (controllers hub_full)).
Proof.
  assert (H1 : 1%nat <> 4%nat) by (intros H; discriminate H).
  assert (H0 : 1%nat ∉ controllers hub_full) by not_member.
  assert (H2 : hash (VStr "dev-1") = Ok (KStr "dev-1")) by reflexivity.
  assert (H3 : registered_as hub_full 1%nat (VStr "dev-1")) by (split; reflexivity).
  assert (H5 : getitem sample_state "type" = Ok (VStr "app/state")) by reflexivity.
  assert (H6 : getitem sample_state "body" = Ok sample_payload) by reflexivity.
  assert (H7 : getitem sample_payload "system" = Ok (VDict [(VStr "udid", VStr "dev-1")]))
    by reflexivity.
  assert (H8 : getitem (VDict [(VStr "udid", VStr "dev-1")]) "udid" = Ok (VStr "dev-1"))
    by reflexivity.
  split; [exact H1|]. split; [exact H0|]. split; [exact H2|]. split; [exact H3|].
  split; [exact H5|]. split; [exact H6|]. split; [exact H7|]. split; [exact H8|].
  exact (stale_reverse_entry sample_now sample_now 1%nat 4%nat
           (VStr "dev-1") (VStr "dev-1") (KStr "dev-1")
           sample_state sample_payload (VDict [(VStr "udid", VStr "dev-1")])
           hub_full H1 H0 H2 H2 H3 H5 H6 H7 H8).
Defined.

(** A text that is no JSON document. *)
Lemma bad_json_reply_witness :
  loads_sample 7 "hello" = JSONDecodeError /\
  on_message loads_sample 7 sample_now sample_now 1%nat (Text "hello") hub_full
  = (hub_full, [(1%nat, bad_json "hello")]) /\
  getitem (bad_json "hello") "type" = Ok (VStr "error") /\
  getitem (bad_json "hello") "body" = Ok (VStr "hello") /\
  handler_survives loads_sample 7 (Text "hello") = true.
Proof.
  assert (H1 : loads_sample 7 "hello" = JSONDecodeError) by reflexivity.
  split; [exact H1|].
  exact (bad_json_reply loads_sample 7 sample_now sample_now 1%nat "hello" hub_full H1).
Defined.

(** * Further properties *)

(** ** More on the authenticator *)

(** [is_data_valid] raises exactly when [ts] cannot be read, or [ts] is
    an integer and [sign] cannot be read: with a [ts] that is no integer
    the answer is [False] whether or not there is a [sign]. *)
Theorem is_data_valid_raises (t1 t2 : Z) (data : value) (e : exn) :
  is_data_valid t1 t2 data = Raise e <->
  getitem data "ts" = Raise e \/
  exists n, getitem data "ts" = Ok (VInt n) /\ getitem data "sign" = Raise e.
Proof.
  unfold is_data_valid, rbind. split.
  - destruct (getitem data "ts") as [ts|e'] eqn:Hts;
      [|intros H; left; inversion H; reflexivity].
    destruct ts as [| |n| | | |]; try (intros H; discriminate H).
    destruct (getitem data "sign") as [sign|e'] eqn:Hs.
    + destruct sign; try (intros H; discriminate H).
      destruct (t1 - 10 <=? n); [|intros H; discriminate H].
      destruct (n <=? t2 + 10); intros H; discriminate H.
    + intros H. right. exists n. split; [reflexivity | inversion H; reflexivity].
  - intros [-> | (n & -> & ->)]; reflexivity.
Qed.

Lemma length_lower s : String.length (lower s) = String.length s.
Proof. induction s as [|c s IH]; simpl; congruence. Qed.

Lemma length_hex bs : String.length (hex bs) = (2 * length bs)%nat.
Proof. induction bs as [|b bs IH]; simpl; [reflexivity | rewrite IH; lia]. Qed.

Lemma sha256_compress_length h block :
  length h = 8%nat -> length (Sha256.compress h block) = 8%nat.
Proof.
  intros Hh. unfold Sha256.compress. rewrite length_zip_with.
  rewrite Hh. reflexivity.
Qed.

Lemma sha256_digest_length msg : length (Sha256.digest msg) = 32%nat.
Proof.
  unfold Sha256.digest.
  assert (Hw : forall bl h, length h = 8%nat ->
                 length (fold_left Sha256.compress bl h) = 8%nat).
  { induction bl as [|b bl IH]; intros h Hh; simpl; [exact Hh|].
    apply IH, sha256_compress_length, Hh. }
  specialize (Hw (Sha256.blocks (length (Sha256.words_of_bytes (Sha256.pad msg)))
                                (Sha256.words_of_bytes (Sha256.pad msg)))
                 Sha256.initial_hash eq_refl).
  revert Hw. generalize (fold_left Sha256.compress
    (Sha256.blocks (length (Sha256.words_of_bytes (Sha256.pad msg)))
                   (Sha256.words_of_bytes (Sha256.pad msg))) Sha256.initial_hash).
  intros ws Hws.
  assert (Hlen : forall l, length (flat_map Sha256.bytes_of_word l) = (4 * length l)%nat).
  { induction l as [|w l IH]; [reflexivity|].
    change (flat_map Sha256.bytes_of_word (w :: l))
      with (Sha256.bytes_of_word w ++ flat_map Sha256.bytes_of_word l).
    rewrite length_app, IH. simpl. lia. }
  rewrite Hlen, Hws. reflexivity.
Qed.

Transparent hmac_hexdigest.
Lemma hmac_hexdigest_length key msg : String.length (hmac_hexdigest key msg) = 64%nat.
Proof.
  unfold hmac_hexdigest, Hmac.digest. rewrite length_hex, sha256_digest_length.
  reflexivity.
Qed.
Opaque hmac_hexdigest.

(** A signature that [is_data_valid] accepts is a string of exactly 64
    characters. *)
Theorem accepted_sign_length (t1 t2 : Z) (data : value) :
  is_data_valid t1 t2 data = Ok true ->
  exists sign, getitem data "sign" = Ok (VStr sign) /\ String.length sign = 64%nat.
Proof.
  intros H. apply is_data_valid_true_iff in H.
  destruct H as (ts & sign & _ & Hs & _ & _ & Hl).
  exists sign. split; [exact Hs|].
  rewrite <- (length_lower sign), Hl. apply hmac_hexdigest_length.
Qed.

Lemma accepted_sign_length_witness :
  is_data_valid sample_now sample_now sample_devices_request = Ok true /\
  exists sign,
    getitem sample_devices_request "sign" = Ok (VStr sign) /\
    String.length sign = 64%nat.
Proof.
  assert (H1 : is_data_valid sample_now sample_now sample_devices_request = Ok true).
  { vm_compute. reflexivity. }
  split; [exact H1|].
  exact (accepted_sign_length sample_now sample_now sample_devices_request H1).
Defined.

(** [is_data_valid] looks at [ts] and [sign] only, and at [sign] up to
    letter case: two requests with the same [ts] whose signatures differ
    in case at most get the same answer, whatever their type and body.
    The signature does not bind the request it comes with. *)
Theorem is_data_valid_ignores_payload (t1 t2 : Z) (data1 data2 : value)
    (sign1 sign2 : string) :
  getitem data1 "ts" = getitem data2 "ts" ->
  getitem data1 "sign" = Ok (VStr sign1) ->
  getitem data2 "sign" = Ok (VStr sign2) ->
  lower sign1 = lower sign2 ->
  is_data_valid t1 t2 data1 = is_data_valid t1 t2 data2.
Proof.
  intros Hts Hs1 Hs2 Hl. unfold is_data_valid, rbind.
  rewrite Hts, Hs1, Hs2, Hl. reflexivity.
Qed.

Lemma is_data_valid_ignores_payload_witness :
  getitem sample_devices_request "ts" = getitem sample_refresh_capitals "ts" /\
  getitem sample_devices_request "sign" = Ok (VStr sample_sign) /\
  getitem sample_refresh_capitals "sign"
  = Ok (VStr "E3AC0C85892F43099E12F507A31098351CFB0C7A4A9E1EDE093FEF91099A3F91") /\
  lower sample_sign
  = lower "E3AC0C85892F43099E12F507A31098351CFB0C7A4A9E1EDE093FEF91099A3F91" /\
  is_data_valid sample_now sample_now sample_devices_request
  = is_data_valid sample_now sample_now sample_refresh_capitals.
Proof.
  assert (H1 : getitem sample_devices_request "ts"
               = getitem sample_refresh_capitals "ts") by reflexivity.
  assert (H2 : getitem sample_devices_request "sign" = Ok (VStr sample_sign))
    by reflexivity.
  assert (H3 : getitem sample_refresh_capitals "sign"
               = Ok (VStr "E3AC0C85892F43099E12F507A31098351CFB0C7A4A9E1EDE093FEF91099A3F91"))
    by reflexivity.
  assert (H4 : lower sample_sign
               = lower "E3AC0C85892F43099E12F507A31098351CFB0C7A4A9E1EDE093FEF91099A3F91")
    by reflexivity.
  split; [exact H1|]. split; [exact H2|]. split; [exact H3|]. split; [exact H4|].
  exact (is_data_valid_ignores_payload sample_now sample_now sample_devices_request
           sample_refresh_capitals sample_sign _ H1 H2 H3 H4).
Defined.

(** ** The authenticated branches *)

Lemma dispatch_refresh t1 t2 websocket data st :
  getitem data "type" = Ok (VStr "control/refresh") ->
  dispatch t1 t2 websocket data st = control_refresh t1 t2 websocket data st.
Proof.
  intros Hty. unfold dispatch, bind at 1, lift at 1. rewrite Hty.
  change (is_str (VStr "control/refresh") "control/devices") with false.
  change (is_str (VStr "control/refresh") "control/refresh") with true.
  reflexivity.
Qed.

Lemma dispatch_command t1 t2 websocket data st :
  getitem data "type" = Ok (VStr "control/command") ->
  dispatch t1 t2 websocket data st = control_command t1 t2 websocket data st.
Proof.
  intros Hty. unfold dispatch, bind at 1, lift at 1. rewrite Hty.
  change (is_str (VStr "control/command") "control/devices") with false.
  change (is_str (VStr "control/command") "control/refresh") with false.
  change (is_str (VStr "control/command") "control/command") with true.
  reflexivity.
Qed.

Lemma dispatch_commands t1 t2 websocket data st :
  getitem data "type" = Ok (VStr "control/commands") ->
  dispatch t1 t2 websocket data st = control_commands t1 t2 websocket data st.
Proof.
  intros Hty. unfold dispatch, bind at 1, lift at 1. rewrite Hty.
  change (is_str (VStr "control/commands") "control/devices") with false.
  change (is_str (VStr "control/commands") "control/refresh") with false.
  change (is_str (VStr "control/commands") "control/command") with false.
  change (is_str (VStr "control/commands") "control/commands") with true.
  reflexivity.
Qed.

(** An authenticated [control/refresh] makes the sender a controller and
    sends one [app/state] request to the connection of every entry of
    [device_links], in the order of the entries; the registry is not
    touched. *)
Theorem control_refresh_broadcast (t1 t2 : Z) (websocket : conn) (data : value) (st : hub) :
  getitem data "type" = Ok (VStr "control/refresh") ->
  is_data_valid t1 t2 data = Ok true ->
  process t1 t2 websocket data st
  = (with_controllers (union {[websocket]}) st,
     map (fun dev => (dev, state_request)) (Dict.values (device_links st))).
Proof.
  intros Hty Hv. unfold process. rewrite (dispatch_refresh _ _ _ _ _ Hty).
  unfold control_refresh. unfold_monad. rewrite Hv. reflexivity.
Qed.

Lemma control_refresh_broadcast_witness :
  getitem sample_refresh_request "type" = Ok (VStr "control/refresh") /\
  is_data_valid sample_now sample_now sample_refresh_request = Ok true /\
  process sample_now sample_now 2%nat sample_refresh_request hub_device
  = (with_controllers (union {[2%nat]}) hub_device,
     map (fun dev => (dev, state_request)) (Dict.values (device_links hub_device))).
Proof.
  assert (H1 : getitem sample_refresh_request "type" = Ok (VStr "control/refresh"))
    by reflexivity.
  assert (H2 : is_data_valid sample_now sample_now sample_refresh_request = Ok true).
  { vm_compute. reflexivity. }
  split; [exact H1|]. split; [exact H2|].
  exact (control_refresh_broadcast sample_now sample_now 2%nat sample_refresh_request
           hub_device H1 H2).
Defined.

Lemma send_status_request_map st :
  send_status_request_to_all_devices st
  = map (fun dev => (dev, state_request)) (Dict.values (device_links st)).
Proof.
  unfold send_status_request_to_all_devices. case_bool_decide as Hlen; [|reflexivity].
  destruct (device_links st); [reflexivity | discriminate Hlen].
Qed.

(** A turn of the status timer sends what an authenticated
    [control/refresh] sends at the same hub, and nothing once
    [stop_timer] is set; the emptiness test of
    [send_status_request_to_all_devices] makes no difference to what is
    sent. *)
Theorem status_request_like_refresh (t1 t2 : Z) (websocket : conn) (data : value)
    (st : hub) :
  getitem data "type" = Ok (VStr "control/refresh") ->
  is_data_valid t1 t2 data = Ok true ->
  status_request_timer_turn false st = (process t1 t2 websocket data st).2 /\
  status_request_timer_turn true st = [] /\
  map fst (status_request_timer_turn false st) = Dict.values (device_links st).
Proof.
  intros Hty Hv.
  assert (Hp : (process t1 t2 websocket data st).2
               = map (fun dev => (dev, state_request)) (Dict.values (device_links st))).
  { unfold process. rewrite (dispatch_refresh _ _ _ _ _ Hty).
    unfold control_refresh. unfold_monad. by rewrite Hv. }
  rewrite Hp. unfold status_request_timer_turn. simpl. rewrite send_status_request_map.
  split; [reflexivity|]. split; [reflexivity|].
  rewrite map_map. simpl. apply map_id.
Qed.

Lemma status_request_like_refresh_witness :
  getitem sample_refresh_request "type" = Ok (VStr "control/refresh") /\
  is_data_valid sample_now sample_now sample_refresh_request = Ok true /\
  status_request_timer_turn false hub_full
  = (process sample_now sample_now 2%nat sample_refresh_request hub_full).2 /\
  status_request_timer_turn true hub_full = [] /\
  map fst (status_request_timer_turn false hub_full) = Dict.values (device_links hub_full).
Proof.
  assert (H1 : getitem sample_refresh_request "type" = Ok (VStr "control/refresh"))
    by reflexivity.
  assert (H2 : is_data_valid sample_now sample_now sample_refresh_request = Ok true).
  { vm_compute. reflexivity. }
  split; [exact H1|]. split; [exact H2|].
  exact (status_request_like_refresh sample_now sample_now 2%nat sample_refresh_request
           hub_full H1 H2).
Defined.

(** [x['body'] if 'body' in x else ''] on a dictionary: the field, or
    the empty string when there is none. *)
Lemma body_or_empty_cases x payload :
  body_or_empty x = Ok payload ->
  getitem x "body" = Ok payload \/
  (getitem x "body" = Raise KeyError /\ payload = VStr "").
Proof.
  destruct x; try discriminate. simpl.
  destruct (Dict.get (KStr "body") entries); intros H; inversion H; auto.
Qed.

Lemma collect_command_send links message ty payload udids conns :
  getitem message "type" = Ok ty ->
  body_or_empty message = Ok payload ->
  Forall2 (fun udid dev => lookup_item links udid = Ok dev) udids conns ->
  collect (command_send links message) udids
  = Ok (map (fun dev => (dev, command_message ty payload)) conns).
Proof.
  intros Hty Hp. induction 1 as [|udid dev udids conns Hl _ IH]; [reflexivity|].
  simpl. unfold command_send at 1, rbind. rewrite Hl, Hty, Hp, IH. reflexivity.
Qed.

(** An authenticated [control/command] whose udids are all registered
    sends one message per udid of [body.devices], in the order of the
    list and once for each occurrence, to the connection registered for
    it: the message has the type of [body] and its [body] field, or the
    empty string when [body] has none.  The sender is made a
    controller. *)
Theorem control_command_delivery (t1 t2 : Z) (websocket : conn) (data body ty : value)
    (udids : list value) (conns : list conn) (st : hub) :
  getitem data "type" = Ok (VStr "control/command") ->
  is_data_valid t1 t2 data = Ok true ->
  getitem data "body" = Ok body ->
  getitem body "devices" = Ok (VList udids) ->
  getitem body "type" = Ok ty ->
  Forall2 (fun udid dev => lookup_item (device_links st) udid = Ok dev) udids conns ->
  exists payload,
    (getitem body "body" = Ok payload \/
     (getitem body "body" = Raise KeyError /\ payload = VStr "")) /\
    process t1 t2 websocket data st
    = (with_controllers (union {[websocket]}) st,
       map (fun dev => (dev, command_message ty payload)) conns).
Proof.
  intros Hty Hv Hb Hd Ht Hall.
  destruct (getitem_is_dict _ _ _ Ht) as [entries ->].
  assert (exists payload, body_or_empty (VDict entries) = Ok payload) as [payload Hp].
  { simpl. destruct (Dict.get (KStr "body") entries); eauto. }
  exists payload. split; [by apply body_or_empty_cases|].
  unfold process. rewrite (dispatch_command _ _ _ _ _ Hty).
  unfold control_command. unfold_monad. rewrite Hv. simpl. rewrite Hb, Hd. simpl.
  by rewrite (collect_command_send _ _ _ _ _ _ Ht Hp Hall).
Qed.

Lemma control_command_delivery_witness :
  getitem (sample_command ["dev-1"; "dev-1"]) "type" = Ok (VStr "control/command") /\
  is_data_valid sample_now sample_now (sample_command ["dev-1"; "dev-1"]) = Ok true /\
  getitem (sample_command ["dev-1"; "dev-1"]) "body"
  = Ok (VDict [(VStr "devices", VList [VStr "dev-1"; VStr "dev-1"]);
               (VStr "type", VStr "touch/down"); (VStr "body", sample_touch)]) /\
  Forall2 (fun udid dev => lookup_item (device_links hub_device) udid = Ok dev)
          [VStr "dev-1"; VStr "dev-1"] [1%nat; 1%nat] /\
  exists payload,
    (getitem (VDict [(VStr "devices", VList [VStr "dev-1"; VStr "dev-1"]);
                     (VStr "type", VStr "touch/down"); (VStr "body", sample_touch)])
             "body" = Ok payload \/
     (getitem (VDict [(VStr "devices", VList [VStr "dev-1"; VStr "dev-1"]);
                      (VStr "type", VStr "touch/down"); (VStr "body", sample_touch)])
              "body" = Raise KeyError /\ payload = VStr "")) /\
    process sample_now sample_now 2%nat (sample_command ["dev-1"; "dev-1"]) hub_device
    = (with_controllers (union {[2%nat]}) hub_device,
       map (fun dev => (dev, command_message (VStr "touch/down") payload)) [1%nat; 1%nat]).
Proof.
  assert (H1 : getitem (sample_command ["dev-1"; "dev-1"]) "type"
               = Ok (VStr "control/command")) by reflexivity.
  assert (H2 : is_data_valid sample_now sample_now (sample_command ["dev-1"; "dev-1"])
               = Ok true).
  { vm_compute. reflexivity. }
  assert (H3 : getitem (sample_command ["dev-1"; "dev-1"]) "body"
               = Ok (VDict [(VStr "devices", VList [VStr "dev-1"; VStr "dev-1"]);
                            (VStr "type", VStr "touch/down"); (VStr "body", sample_touch)]))
    by reflexivity.
  assert (H4 : Forall2 (fun udid dev => lookup_item (device_links hub_device) udid = Ok dev)
                       [VStr "dev-1"; VStr "dev-1"] [1%nat; 1%nat]).
  { constructor; [reflexivity|]. constructor; [reflexivity|]. constructor. }
  split; [exact H1|]. split; [exact H2|]. split; [exact H3|]. split; [exact H4|].
  exact (control_command_delivery sample_now sample_now 2%nat
           (sample_command ["dev-1"; "dev-1"]) _ (VStr "touch/down")
           [VStr "dev-1"; VStr "dev-1"] [1%nat; 1%nat] hub_device
           H1 H2 H3 eq_refl eq_refl H4).
Defined.

Lemma length_fan_out (conns : list conn) (msgs : list value) :
  length (flat_map (fun dev => map (fun msg => (dev, msg)) msgs) conns)
  = (length conns * length msgs)%nat.
Proof.
  induction conns as [|dev conns IH]; [reflexivity|].
  change (flat_map (fun dev => map (fun msg => (dev, msg)) msgs) (dev :: conns))
    with (map (fun msg => (dev, msg)) msgs
          ++ flat_map (fun dev => map (fun msg => (dev, msg)) msgs) conns).
  rewrite length_app, length_map, IH. reflexivity.
Qed.

Lemma collect_commands links udid dev cmds msgs :
  lookup_item links udid = Ok dev ->
  Forall2 (fun cmd msg =>
             exists ty payload,
               getitem cmd "type" = Ok ty /\ body_or_empty cmd = Ok payload /\
               msg = command_message ty payload) cmds msgs ->
  collect (fun cmd => command_send links cmd udid) cmds
  = Ok (map (fun msg => (dev, msg)) msgs).
Proof.
  intros Hl. induction 1 as [|cmd msg cmds msgs (ty & payload & Ht & Hp & ->) _ IH];
    [reflexivity|].
  simpl. unfold command_send at 1, rbind. rewrite Hl, Ht, Hp, IH. reflexivity.
Qed.

(** An authenticated [control/commands] whose udids are all registered
    and whose commands all carry a type sends, udid after udid, every
    command in the order of [body.commands] to the connection of that
    udid: [len(devices) * len(commands)] messages in all. *)
Theorem control_commands_delivery (t1 t2 : Z) (websocket : conn) (data body : value)
    (udids cmds msgs : list value) (conns : list conn) (st : hub) :
  getitem data "type" = Ok (VStr "control/commands") ->
  is_data_valid t1 t2 data = Ok true ->
  getitem data "body" = Ok body ->
  getitem body "devices" = Ok (VList udids) ->
  getitem body "commands" = Ok (VList cmds) ->
  Forall2 (fun udid dev => lookup_item (device_links st) udid = Ok dev) udids conns ->
  Forall2 (fun cmd msg =>
             exists ty payload,
               getitem cmd "type" = Ok ty /\ body_or_empty cmd = Ok payload /\
               msg = command_message ty payload) cmds msgs ->
  process t1 t2 websocket data st
  = (with_controllers (union {[websocket]}) st,
     flat_map (fun dev => map (fun msg => (dev, msg)) msgs) conns) /\
  length (process t1 t2 websocket data st).2 = (length udids * length cmds)%nat.
Proof.
  intros Hty Hv Hb Hd Hc Hall Hcmds.
  assert (Hcol : collect (fun udid =>
                            let? cs := iterate (VList cmds) in
                            collect (fun cmd => command_send (device_links st) cmd udid) cs)
                         udids
                 = Ok (flat_map (fun dev => map (fun msg => (dev, msg)) msgs) conns)).
  { clear -Hall Hcmds. induction Hall as [|udid dev udids conns Hl _ IH]; [reflexivity|].
    simpl. unfold rbind at 1. simpl.
    rewrite (collect_commands _ _ _ _ _ Hl Hcmds). unfold rbind at 1.
    simpl in IH. rewrite IH. reflexivity. }
  assert (Hp : process t1 t2 websocket data st
               = (with_controllers (union {[websocket]}) st,
                  flat_map (fun dev => map (fun msg => (dev, msg)) msgs) conns)).
  { unfold process. rewrite (dispatch_commands _ _ _ _ _ Hty).
    unfold control_commands. unfold_monad. rewrite Hv. simpl. rewrite Hb, Hd, Hc. simpl.
    change (rbind (Ok udids) ?f) with (f udids). cbv beta.
    simpl in Hcol. by rewrite Hcol. }
  split; [exact Hp|]. rewrite Hp.
  apply Forall2_length in Hall. apply Forall2_length in Hcmds.
  rewrite Hall, Hcmds. cbn [snd]. apply length_fan_out.
Qed.

Lemma control_commands_delivery_witness :
  getitem (sample_commands ["dev-1"]) "type" = Ok (VStr "control/commands") /\
  is_data_valid sample_now sample_now (sample_commands ["dev-1"]) = Ok true /\
  Forall2 (fun udid dev => lookup_item (device_links hub_device) udid = Ok dev)
          [VStr "dev-1"] [1%nat] /\
  process sample_now sample_now 2%nat (sample_commands ["dev-1"]) hub_device
  = (with_controllers (union {[2%nat]}) hub_device,
     flat_map (fun dev => map (fun msg => (dev, msg))
                              [command_message (VStr "touch/down") sample_touch;
                               command_message (VStr "touch/up") sample_touch])
              [1%nat]) /\
  length (process sample_now sample_now 2%nat (sample_commands ["dev-1"]) hub_device).2
  = (length [VStr "dev-1"]
     * length [VDict [(VStr "type", VStr "touch/down"); (VStr "body", sample_touch)];
               VDict [(VStr "type", VStr "touch/up"); (VStr "body", sample_touch)]])%nat.
Proof.
  assert (H1 : getitem (sample_commands ["dev-1"]) "type" = Ok (VStr "control/commands"))
    by reflexivity.
  assert (H2 : is_data_valid sample_now sample_now (sample_commands ["dev-1"]) = Ok true).
  { vm_compute. reflexivity. }
  assert (H3 : Forall2 (fun udid dev => lookup_item (device_links hub_device) udid = Ok dev)
                       [VStr "dev-1"] [1%nat]).
  { constructor; [reflexivity | constructor]. }
  assert (H4 : Forall2 (fun cmd msg =>
                          exists ty payload,
                            getitem cmd "type" = Ok ty /\ body_or_empty cmd = Ok payload /\
                            msg = command_message ty payload)
                 [VDict [(VStr "type", VStr "touch/down"); (VStr "body", sample_touch)];
                  VDict [(VStr "type", VStr "touch/up"); (VStr "body", sample_touch)]]
                 [command_message (VStr "touch/down") sample_touch;
                  command_message (VStr "touch/up") sample_touch]).
  { constructor; [exists (VStr "touch/down"), sample_touch; repeat split|].
    constructor; [exists (VStr "touch/up"), sample_touch; repeat split|].
    constructor. }
  split; [exact H1|]. split; [exact H2|]. split; [exact H3|].
  exact (control_commands_delivery sample_now sample_now 2%nat (sample_commands ["dev-1"])
           _ [VStr "dev-1"] _ _ [1%nat] hub_device H1 H2 eq_refl eq_refl eq_refl H3 H4).
Defined.

(** An authenticated [control/command] or [control/commands] whose
    [body.devices] is the empty list is accepted without a word: the
    sender is made a controller and nothing is sent, whether or not the
    body carries a type or usable commands. *)
Theorem empty_devices_accepted (t1 t2 : Z) (websocket : conn) (data body : value)
    (st : hub) :
  is_data_valid t1 t2 data = Ok true ->
  getitem data "body" = Ok body ->
  getitem body "devices" = Ok (VList []) ->
  getitem data "type" = Ok (VStr "control/command") \/
  (getitem data "type" = Ok (VStr "control/commands") /\
   exists commands, getitem body "commands" = Ok commands) ->
  process t1 t2 websocket data st = (with_controllers (union {[websocket]}) st, []).
Proof.
  intros Hv Hb Hd [Hty | [Hty [commands Hc]]]; unfold process.
  - rewrite (dispatch_command _ _ _ _ _ Hty).
    unfold control_command. unfold_monad. rewrite Hv. simpl. rewrite Hb, Hd. reflexivity.
  - rewrite (dispatch_commands _ _ _ _ _ Hty).
    unfold control_commands. unfold_monad. rewrite Hv. simpl. rewrite Hb, Hd, Hc.
    reflexivity.
Qed.

Lemma empty_devices_accepted_witness :
  is_data_valid sample_now sample_now (sample_command []) = Ok true /\
  getitem (sample_command []) "body"
  = Ok (VDict [(VStr "devices", VList []); (VStr "type", VStr "touch/down");
               (VStr "body", sample_touch)]) /\
  getitem (VDict [(VStr "devices", VList []); (VStr "type", VStr "touch/down");
                  (VStr "body", sample_touch)]) "devices" = Ok (VList []) /\
  getitem (sample_command []) "type" = Ok (VStr "control/command") /\
  process sample_now sample_now 2%nat (sample_command []) hub_device
  = (with_controllers (union {[2%nat]}) hub_device, []).
Proof.
  assert (H1 : is_data_valid sample_now sample_now (sample_command []) = Ok true).
  { vm_compute. reflexivity. }
  assert (H2 : getitem (sample_command []) "body"
               = Ok (VDict [(VStr "devices", VList []); (VStr "type", VStr "touch/down");
                            (VStr "body", sample_touch)])) by reflexivity.
  assert (H3 : getitem (VDict [(VStr "devices", VList []);
                               (VStr "type", VStr "touch/down");
                               (VStr "body", sample_touch)]) "devices" = Ok (VList []))
    by reflexivity.
  assert (H4 : getitem (sample_command []) "type" = Ok (VStr "control/command"))
    by reflexivity.
  split; [exact H1|]. split; [exact H2|]. split; [exact H3|]. split; [exact H4|].
  exact (empty_devices_accepted sample_now sample_now 2%nat (sample_command []) _
           hub_device H1 H2 H3 (or_introl H4)).
Defined.

(** The sender of an authenticated [control/command] or
    [control/commands] is made a controller before the body is looked
    at: a request without a [body] sends nothing and still leaves its
    sender in [controllers]. *)
Theorem authenticated_without_body (t1 t2 : Z) (websocket : conn) (data ty : value)
    (e : exn) (st : hub) :
  getitem data "type" = Ok ty ->
  is_str ty "control/command" || is_str ty "control/commands" = true ->
  is_data_valid t1 t2 data = Ok true ->
  getitem data "body" = Raise e ->
  process t1 t2 websocket data st = (with_controllers (union {[websocket]}) st, []) /\
  websocket ∈ controllers (process t1 t2 websocket data st).1.
Proof.
  intros Hty Hc Hv Hb.
  assert (Hp : process t1 t2 websocket data st
               = (with_controllers (union {[websocket]}) st, [])).
  { destruct ty as [| | | | s | |]; try discriminate Hc.
    unfold is_str in Hc. apply orb_prop in Hc.
    destruct Hc as [Hc | Hc]; apply bool_decide_eq_true in Hc; subst s; unfold process.
    - rewrite (dispatch_command _ _ _ _ _ Hty).
      unfold control_command. unfold_monad. rewrite Hv. simpl. by rewrite Hb.
    - rewrite (dispatch_commands _ _ _ _ _ Hty).
      unfold control_commands. unfold_monad. rewrite Hv. simpl. by rewrite Hb. }
  split; [exact Hp|]. rewrite Hp. simpl.
  apply elem_of_union. left. by apply elem_of_singleton.
Qed.

Lemma authenticated_without_body_witness :
  getitem sample_command_no_body "type" = Ok (VStr "control/command") /\
  is_str (VStr "control/command") "control/command"
  || is_str (VStr "control/command") "control/commands" = true /\
  is_data_valid sample_now sample_now sample_command_no_body = Ok true /\
  getitem sample_command_no_body "body" = Raise KeyError /\
  process sample_now sample_now 2%nat sample_command_no_body hub_device
  = (with_controllers (union {[2%nat]}) hub_device, []) /\
  2%nat ∈ controllers (process sample_now sample_now 2%nat sample_command_no_body hub_device).1.
Proof.
  assert (H1 : getitem sample_command_no_body "type" = Ok (VStr "control/command"))
    by reflexivity.
  assert (H2 : is_str (VStr "control/command") "control/command"
               || is_str (VStr "control/command") "control/commands" = true)
    by reflexivity.
  assert (H3 : is_data_valid sample_now sample_now sample_command_no_body = Ok true).
  { vm_compute. reflexivity. }
  assert (H4 : getitem sample_command_no_body "body" = Raise KeyError) by reflexivity.
  split; [exact H1|]. split; [exact H2|]. split; [exact H3|]. split; [exact H4|].
  exact (authenticated_without_body sample_now sample_now 2%nat sample_command_no_body
           (VStr "control/command") KeyError hub_device H1 H2 H3 H4).
Defined.

(** ** Who is a controller *)

Ltac control_branch_auth :=
  unfold control_devices, control_refresh, control_command, control_commands;
  unfold_monad;
  match goal with
  | |- context [is_data_valid ?t1 ?t2 ?data] =>
      destruct (is_data_valid t1 t2 data) as [[|]|]
  end;
  repeat match goal with
         | |- context [match ?r with Ok _ => _ | Raise _ => _ end] => destruct r; simpl
         end;
  first [left; reflexivity | right; split; reflexivity].

Lemma control_devices_controllers t1 t2 websocket data st :
  (control_devices t1 t2 websocket data st).1 = st \/
  ((control_devices t1 t2 websocket data st).1 = with_controllers (union {[websocket]}) st
   /\ is_data_valid t1 t2 data = Ok true).
Proof. control_branch_auth. Qed.

Lemma control_refresh_controllers t1 t2 websocket data st :
  (control_refresh t1 t2 websocket data st).1 = st \/
  ((control_refresh t1 t2 websocket data st).1 = with_controllers (union {[websocket]}) st
   /\ is_data_valid t1 t2 data = Ok true).
Proof. control_branch_auth. Qed.

Lemma control_command_controllers t1 t2 websocket data st :
  (control_command t1 t2 websocket data st).1 = st \/
  ((control_command t1 t2 websocket data st).1 = with_controllers (union {[websocket]}) st
   /\ is_data_valid t1 t2 data = Ok true).
Proof. control_branch_auth. Qed.

Lemma control_commands_controllers t1 t2 websocket data st :
  (control_commands t1 t2 websocket data st).1 = st \/
  ((control_commands t1 t2 websocket data st).1 = with_controllers (union {[websocket]}) st
   /\ is_data_valid t1 t2 data = Ok true).
Proof. control_branch_auth. Qed.

Lemma process_state t1 t2 websocket data st :
  (process t1 t2 websocket data st).1 = (dispatch t1 t2 websocket data st).1.
Proof. unfold process. by destruct (dispatch t1 t2 websocket data st) as [? [?|?]]. Qed.

Lemma app_state_controllers websocket data st :
  controllers (app_state websocket data st).1 = controllers st.
Proof.
  destruct (app_state_cases websocket data st)
    as [[e ->] | (body & system & udid & k & _ & _ & _ & _ & ->)]; reflexivity.
Qed.

Lemma dispatch_controllers t1 t2 websocket data st st' r :
  dispatch t1 t2 websocket data st = (st', r) ->
  controllers st' = controllers st \/
  (controllers st' = {[websocket]} ∪ controllers st /\
   is_data_valid t1 t2 data = Ok true /\
   exists ty, getitem data "type" = Ok ty /\ is_control ty = true).
Proof.
  unfold dispatch, bind at 1, lift at 1.
  destruct (getitem data "type") as [ty|] eqn:Hty;
    [|intros [= <- _]; left; reflexivity].
  assert (Hbranch : forall (m : M (list send)),
             is_control ty = true ->
             ((m st).1 = st \/
              ((m st).1 = with_controllers (union {[websocket]}) st /\
               is_data_valid t1 t2 data = Ok true)) ->
             m st = (st', r) ->
             controllers st' = controllers st \/
             (controllers st' = {[websocket]} ∪ controllers st /\
              is_data_valid t1 t2 data = Ok true /\
              exists ty0, Ok ty = Ok ty0 /\ is_control ty0 = true)).
  { intros m Hc [Hs | [Hs Hv]] H; rewrite H in Hs; simpl in Hs; subst st';
      [left; reflexivity|].
    right. split; [reflexivity|]. split; [exact Hv|]. exists ty. by split. }
  unfold is_control in Hbranch.
  destruct (is_str ty "control/devices").
  { apply Hbranch; [reflexivity | apply control_devices_controllers]. }
  destruct (is_str ty "control/refresh").
  { apply Hbranch; [reflexivity | apply control_refresh_controllers]. }
  destruct (is_str ty "control/command").
  { apply Hbranch; [reflexivity | apply control_command_controllers]. }
  destruct (is_str ty "control/commands").
  { apply Hbranch; [reflexivity | apply control_commands_controllers]. }
  clear Hbranch.
  intros H. left. revert H. unfold bind.
  assert (Hs : forall (m : M unit),
             controllers (m st).1 = controllers st ->
             (let (st0, r0) := m st in
              match r0 with
              | Ok _ => relay websocket data st0
              | Raise e => (st0, Raise e)
              end) = (st', r) ->
             controllers st' = controllers st).
  { intros m Hm. destruct (m st) as [st0 [[]|e]]; simpl in Hm.
    - intros H. pose proof (relay_state websocket data st0) as Hr.
      rewrite H in Hr. simpl in Hr. by subst st0.
    - intros [= <- _]. exact Hm. }
  destruct (is_str ty "app/state").
  - apply Hs, app_state_controllers.
  - apply Hs. reflexivity.
Qed.

(** A message changes [controllers] in one way only: a [control/*]
    message that [is_data_valid] accepts adds its sender.  No message
    without a valid signature makes anyone a controller, and no message
    removes one. *)
Theorem controller_requires_auth (t1 t2 : Z) (websocket : conn) (data : value) (st : hub) :
  controllers (process t1 t2 websocket data st).1 = controllers st \/
  (controllers (process t1 t2 websocket data st).1 = {[websocket]} ∪ controllers st /\
   is_data_valid t1 t2 data = Ok true /\
   exists ty, getitem data "type" = Ok ty /\ is_control ty = true).
Proof.
  rewrite !process_state.
  destruct (dispatch t1 t2 websocket data st) as [st' r] eqn:Hd.
  exact (dispatch_controllers _ _ _ _ _ _ _ Hd).
Qed.

Lemma on_close_controllers websocket st :
  controllers (on_close websocket st).1 = controllers st ∖ {[websocket]}.
Proof.
  unfold on_close, connection_closed. unfold_monad. simpl.
  case_bool_decide as Hc; [reflexivity|].
  assert (Hsame : controllers st = controllers st ∖ {[websocket]}).
  { apply set_eq. intros c. rewrite elem_of_difference, elem_of_singleton.
    split; [|tauto]. intros Hin. split; [exact Hin|]. by intros ->. }
  destruct (device_links_map st !! websocket) as [udid|]; [|exact Hsame].
  unfold del_item, rbind.
  destruct (hash udid) as [k|]; [|exact Hsame].
  destruct (Dict.get k (device_table st)); [|exact Hsame]. simpl.
  destruct (Dict.get k (device_links st)); [|exact Hsame]. simpl.
  change (has_controllers _) with (has_controllers st).
  destruct (has_controllers st); exact Hsame.
Qed.

Section Membership.

Variable json_loads : nat -> string -> loaded.

(** A controller stays one until the handler of [ConnectionClosed]
    runs for its own connection: a message, from whomever, never
    shrinks [controllers], the handler of [ConnectionClosed] removes
    the connection it runs for and no other, and a loop that ends
    without the exception removes nobody. *)
Theorem controllers_until_close (st : hub) :
  (forall websocket serial t1 t2 message,
      controllers st
      ⊆ controllers (step json_loads (Message websocket serial t1 t2 message) st).1)
  /\
  (forall websocket,
      controllers (step json_loads (ConnectionClosed websocket) st).1
      = controllers st ∖ {[websocket]})
  /\
  (forall websocket,
      controllers (step json_loads (IterationEnded websocket) st).1 = controllers st).
Proof.
  split; [|split; [|done]].
  - intros websocket serial t1 t2 [payload|raw]; simpl; [done|].
    destruct (json_loads serial raw) as [data| |]; [|done|done].
    rewrite process_state.
    destruct (dispatch t1 t2 websocket data st) as [st' r] eqn:Hd.
    destruct (dispatch_controllers _ _ _ _ _ _ _ Hd) as [Hs | [Hs _]];
      simpl; rewrite Hs; [done|]. apply union_subseteq_r.
  - intros websocket. apply on_close_controllers.
Qed.

End Membership.

(** ** State reports *)

Lemma dispatch_app_state t1 t2 websocket data st :
  getitem data "type" = Ok (VStr "app/state") ->
  dispatch t1 t2 websocket data st
  = (app_state websocket data ;; relay websocket data) st.
Proof.
  intros Hty. unfold dispatch, bind at 1, lift at 1. rewrite Hty.
  change (is_str (VStr "app/state") "control/devices") with false.
  change (is_str (VStr "app/state") "control/refresh") with false.
  change (is_str (VStr "app/state") "control/command") with false.
  change (is_str (VStr "app/state") "control/commands") with false.
  change (is_str (VStr "app/state") "app/state") with true.
  reflexivity.
Qed.

Lemma app_state_reports websocket data body udid k st :
  reports data body udid k ->
  app_state websocket data st = (registered_hub websocket udid k body st, Ok tt).
Proof.
  intros (_ & Hb & (system & Hs & Hu) & Hk).
  destruct (app_state_cases websocket data st)
    as [[e He] | (body' & system' & udid' & k' & Hb' & Hs' & Hu' & Hk' & He)].
  - exfalso. revert He. unfold app_state, store_item, rbind. unfold_monad.
    rewrite Hb, Hs, Hu, Hk. simpl. rewrite ?Hk. discriminate.
  - rewrite He.
    assert (body' = body) as -> by congruence.
    assert (system' = system) as -> by congruence.
    assert (udid' = udid) as -> by congruence.
    assert (k' = k) as -> by congruence.
    reflexivity.
Qed.

Lemma process_reports t1 t2 websocket data body udid k st :
  reports data body udid k ->
  (process t1 t2 websocket data st).1 = registered_hub websocket udid k body st.
Proof.
  intros Hr. rewrite process_state.
  rewrite (dispatch_app_state _ _ _ _ _ (proj1 Hr)).
  unfold bind. rewrite (app_state_reports _ _ _ _ _ _ Hr). cbv beta iota.
  apply relay_state.
Qed.

(** What is stored is what is read back.  After a state report the
    udid leads to the sender in [device_links] and to the payload in
    [device_table], and the sender leads to the udid in
    [device_links_map]; the entries of every other udid and of every
    other connection are what they were, and so is [controllers]. *)
Theorem app_state_registers (t1 t2 : Z) (websocket : conn) (data body udid : value)
    (k : key) (st : hub) :
  reports data body udid k ->
  let st' := (process t1 t2 websocket data st).1 in
  lookup_item (device_links st') udid = Ok websocket /\
  lookup_item (device_table st') udid = Ok body /\
  device_links_map st' !! websocket = Some udid /\
  (forall k', k' <> k ->
     Dict.get k' (device_links st') = Dict.get k' (device_links st) /\
     Dict.get k' (device_table st') = Dict.get k' (device_table st)) /\
  (forall other, other <> websocket ->
     device_links_map st' !! other = device_links_map st !! other) /\
  controllers st' = controllers st.
Proof.
  intros Hr st'. subst st'. rewrite (process_reports _ _ _ _ _ _ _ _ Hr).
  destruct Hr as (_ & _ & _ & Hk). unfold lookup_item, rbind. rewrite Hk. simpl.
  rewrite !DictFacts.get_set_eq by done. rewrite lookup_insert_eq.
  repeat (split; [reflexivity|]). split.
  - intros k' Hne. by rewrite !(DictFacts.get_set_ne k k' udid).
  - split; [|reflexivity]. intros other Hne. by rewrite lookup_insert_ne.
Qed.

Lemma sample_state_reports :
  reports sample_state sample_payload (VStr "dev-1") (KStr "dev-1").
Proof.
  split; [reflexivity|]. split; [reflexivity|]. split; [|reflexivity].
  exists (VDict [(VStr "udid", VStr "dev-1")]). split; reflexivity.
Defined.

Lemma app_state_registers_witness :
  reports sample_state sample_payload (VStr "dev-1") (KStr "dev-1") /\
  let st' := (process 0 0 1%nat sample_state empty_hub).1 in
  lookup_item (device_links st') (VStr "dev-1") = Ok 1%nat /\
  lookup_item (device_table st') (VStr "dev-1") = Ok sample_payload /\
  device_links_map st' !! 1%nat = Some (VStr "dev-1") /\
  (forall k', k' <> KStr "dev-1" ->
     Dict.get k' (device_links st') = Dict.get k' (device_links empty_hub) /\
     Dict.get k' (device_table st') = Dict.get k' (device_table empty_hub)) /\
  (forall other, other <> 1%nat ->
     device_links_map st' !! other = device_links_map empty_hub !! other) /\
  controllers st' = controllers empty_hub.
Proof.
  split; [exact sample_state_reports|].
  exact (app_state_registers 0 0 1%nat sample_state sample_payload (VStr "dev-1")
           (KStr "dev-1") empty_hub sample_state_reports).
Defined.

(** A state report that cannot be registered, because [body],
    [body.system] or [body.system.udid] is missing or the udid is a list
    or a dictionary, changes nothing and is relayed to nobody, even when
    its sender is a registered device and controllers are listening. *)
Theorem app_state_malformed (t1 t2 : Z) (websocket : conn) (data : value) (st : hub) :
  getitem data "type" = Ok (VStr "app/state") ->
  (forall body k, getitem data "body" = Ok body -> payload_key body <> Ok k) ->
  process t1 t2 websocket data st = (st, []).
Proof.
  intros Hty Hbad. unfold process. rewrite (dispatch_app_state _ _ _ _ _ Hty).
  unfold bind.
  destruct (app_state_cases websocket data st)
    as [[e ->] | (body & system & udid & k & Hb & Hs & Hu & Hk & _)]; [reflexivity|].
  exfalso. apply (Hbad body k Hb). unfold payload_key, rbind. by rewrite Hs, Hu.
Qed.

Lemma app_state_malformed_witness :
  getitem sample_state_unhashable "type" = Ok (VStr "app/state") /\
  (forall body k,
      getitem sample_state_unhashable "body" = Ok body -> payload_key body <> Ok k) /\
  process sample_now sample_now 1%nat sample_state_unhashable hub_full = (hub_full, []).
Proof.
  assert (H1 : getitem sample_state_unhashable "type" = Ok (VStr "app/state"))
    by reflexivity.
  assert (H2 : forall body k,
             getitem sample_state_unhashable "body" = Ok body -> payload_key body <> Ok k).
  { intros body k Hb. injection Hb as <-. intros H. discriminate H. }
  split; [exact H1|]. split; [exact H2|].
  exact (app_state_malformed sample_now sample_now 1%nat sample_state_unhashable
           hub_full H1 H2).
Defined.

(** A connection that reports under one udid and later under another
    has only the second one deleted when it closes: the first udid keeps
    its entry in [device_links], still naming the closed connection, and
    its payload in [device_table]. *)
Theorem udid_change_leaks (t1 t2 t3 t4 : Z) (websocket : conn)
    (data1 data2 body1 body2 udid1 udid2 : value) (k1 k2 : key) (st : hub) :
  websocket ∉ controllers st ->
  reports data1 body1 udid1 k1 ->
  reports data2 body2 udid2 k2 ->
  k1 <> k2 ->
  let st1 := (process t1 t2 websocket data1 st).1 in
  let st2 := (process t3 t4 websocket data2 st1).1 in
  let st3 := (on_close websocket st2).1 in
  lookup_item (device_links st3) udid1 = Ok websocket /\
  lookup_item (device_table st3) udid1 = Ok body1 /\
  Dict.get k2 (device_links st3) = None /\
  Dict.get k2 (device_table st3) = None /\
  device_links_map st3 !! websocket = None.
Proof.
  intros Hc Hr1 Hr2 Hne st1 st2 st3.
  assert (H1 : st1 = registered_hub websocket udid1 k1 body1 st)
    by apply (process_reports _ _ _ _ _ _ _ _ Hr1).
  assert (H2 : st2 = registered_hub websocket udid2 k2 body2 st1)
    by apply (process_reports _ _ _ _ _ _ _ _ Hr2).
  destruct Hr1 as (_ & _ & _ & Hk1). destruct Hr2 as (_ & _ & _ & Hk2).
  assert (H3 : st3 = unregistered_hub websocket k2 st2).
  { subst st3. rewrite (on_close_device websocket udid2 k2 st2); [reflexivity| | | | |].
    - by rewrite H2, H1.
    - rewrite H2. simpl. apply lookup_insert_eq.
    - exact Hk2.
    - rewrite H2. simpl. rewrite DictFacts.get_set_eq by done. eauto.
    - rewrite H2. simpl. rewrite DictFacts.get_set_eq by done. eauto. }
  unfold lookup_item, rbind. rewrite Hk1, H3, H2, H1. simpl.
  rewrite !DictFacts.get_del_eq, lookup_delete_eq.
  rewrite !(DictFacts.get_del_ne k2 k1) by done.
  rewrite !(DictFacts.get_set_ne k2 k1 udid2) by done.
  rewrite !DictFacts.get_set_eq by done. done.
Qed.

Lemma sample_state_other_reports :
  reports sample_state_other
          (VDict [(VStr "system", VDict [(VStr "udid", VStr "dev-2")])])
          (VStr "dev-2") (KStr "dev-2").
Proof.
  split; [reflexivity|]. split; [reflexivity|]. split; [|reflexivity].
  exists (VDict [(VStr "udid", VStr "dev-2")]). split; reflexivity.
Defined.

Lemma udid_change_leaks_witness :
  (1%nat ∉ controllers empty_hub) /\
  reports sample_state sample_payload (VStr "dev-1") (KStr "dev-1") /\
  reports sample_state_other
          (VDict [(VStr "system", VDict [(VStr "udid", VStr "dev-2")])])
          (VStr "dev-2") (KStr "dev-2") /\
  KStr "dev-1" <> KStr "dev-2" /\
  let st1 := (process 0 0 1%nat sample_state empty_hub).1 in
  let st2 := (process 0 0 1%nat sample_state_other st1).1 in
  let st3 := (on_close 1%nat st2).1 in
  lookup_item (device_links st3) (VStr "dev-1") = Ok 1%nat /\
  lookup_item (device_table st3) (VStr "dev-1") = Ok sample_payload /\
  Dict.get (KStr "dev-2") (device_links st3) = None /\
  Dict.get (KStr "dev-2") (device_table st3) = None /\
  device_links_map st3 !! 1%nat = None.
Proof.
  assert (H1 : 1%nat ∉ controllers empty_hub).
  { apply (bool_decide_unpack _). vm_compute. exact I. }
  assert (H2 : KStr "dev-1" <> KStr "dev-2") by (intros H; discriminate H).
  split; [exact H1|]. split; [exact sample_state_reports|].
  split; [exact sample_state_other_reports|]. split; [exact H2|].
  exact (udid_change_leaks 0 0 0 0 1%nat sample_state sample_state_other _ _ _ _ _ _
           empty_hub H1 sample_state_reports sample_state_other_reports H2).
Defined.



(** ** What the registry keeps *)

Lemma dispatch_registry_payload t1 t2 websocket data st st' r :
  dispatch t1 t2 websocket data st = (st', r) ->
  same_registry st st' \/
  exists udid k body,
    hash udid = Ok k /\ payload_key body = Ok k /\
    st' = registered_hub websocket udid k body st.
Proof.
  unfold dispatch, bind at 1, lift at 1.
  destruct (getitem data "type") as [ty|];
    [|intros [= <- _]; left; apply same_registry_refl].
  assert (Hbranch : forall (m : M (list send)),
             same_registry st (m st).1 -> m st = (st', r) -> same_registry st st').
  { intros m Hs H. by rewrite H in Hs. }
  destruct (is_str ty "control/devices").
  { intros H. left. apply (Hbranch _ (control_devices_registry _ _ _ _ _) H). }
  destruct (is_str ty "control/refresh").
  { intros H. left. apply (Hbranch _ (control_refresh_registry _ _ _ _ _) H). }
  destruct (is_str ty "control/command").
  { intros H. left. apply (Hbranch _ (control_command_registry _ _ _ _ _) H). }
  destruct (is_str ty "control/commands").
  { intros H. left. apply (Hbranch _ (control_commands_registry _ _ _ _ _) H). }
  clear Hbranch. unfold bind. destruct (is_str ty "app/state").
  - destruct (app_state_cases websocket data st)
      as [[e ->] | (body & system & udid & k & _ & Hs & Hu & Hk & ->)].
    + intros [= <- _]. left. apply same_registry_refl.
    + intros H. right. exists udid, k, body. split; [exact Hk|]. split.
      * unfold payload_key, rbind. by rewrite Hs, Hu.
      * pose proof (relay_state websocket data
                      (registered_hub websocket udid k body st)) as Hr.
        by rewrite H in Hr.
  - unfold ret. intros H. left.
    pose proof (relay_state websocket data st) as Hr. rewrite H in Hr. simpl in Hr.
    subst st'. apply same_registry_refl.
Qed.

Lemma on_close_table websocket st :
  device_table (on_close websocket st).1 = device_table st \/
  exists k, device_table (on_close websocket st).1 = Dict.del k (device_table st).
Proof.
  unfold on_close, connection_closed. unfold_monad. simpl.
  case_bool_decide; [by left|].
  destruct (device_links_map st !! websocket) as [udid|]; [|by left].
  unfold del_item, rbind.
  destruct (hash udid) as [k|]; [|by left].
  destruct (Dict.get k (device_table st)); [|by left]. simpl.
  destruct (Dict.get k (device_links st)); simpl; [|right; by exists k].
  change (has_controllers _) with (has_controllers st).
  destruct (has_controllers st); right; by exists k.
Qed.

Lemma on_close_links websocket st :
  device_links (on_close websocket st).1 = device_links st \/
  exists k, device_links (on_close websocket st).1 = Dict.del k (device_links st).
Proof.
  unfold on_close, connection_closed. unfold_monad. simpl.
  case_bool_decide; [by left|].
  destruct (device_links_map st !! websocket) as [udid|]; [|by left].
  unfold del_item, rbind.
  destruct (hash udid) as [k|]; [|by left].
  destruct (Dict.get k (device_table st)); [|by left]. simpl.
  destruct (Dict.get k (device_links st)); simpl; [|by left].
  change (has_controllers _) with (has_controllers st).
  destruct (has_controllers st); right; by exists k.
Qed.

Lemma table_consistent_set table udid k body :
  hash udid = Ok k -> payload_key body = Ok k ->
  table_consistent table -> table_consistent (Dict.set k udid body table).
Proof.
  intros Hk Hp Ht. unfold table_consistent, Dict.set in *.
  destruct (Dict.get k table).
  - rewrite List.Forall_map. revert Ht. apply List.Forall_impl.
    intros [obj w] Hw. unfold Dict.replace. simpl.
    destruct (Dict.is_key k obj) eqn:E; [|exact Hw].
    exists k. split; [by apply DictFacts.is_key_true | exact Hp].
  - apply List.Forall_app. split; [exact Ht|].
    constructor; [|constructor]. exists k. by split.
Qed.

Lemma table_consistent_del table k :
  table_consistent table -> table_consistent (Dict.del k table).
Proof.
  unfold table_consistent, Dict.del. rewrite !List.Forall_forall.
  intros Ht e He. apply List.filter_In in He. apply Ht, He.
Qed.

Lemma hashed_key_present k (objs : list value) (ks : list key) :
  map hash objs = map Ok ks -> In k ks -> existsb (Dict.is_key k) objs = true.
Proof.
  revert ks. induction objs as [|obj objs IH]; intros [|k' ks] Hm Hin;
    try discriminate Hm; [destruct Hin|].
  simpl in Hm. injection Hm as Hh Hm. simpl.
  destruct Hin as [-> | Hin].
  - by rewrite (DictFacts.is_key_hash _ _ Hh).
  - rewrite (IH ks Hm Hin). apply orb_true_r.
Qed.

Lemma keys_unique_set {V} (d : Dict.t V) udid k (v : V) :
  hash udid = Ok k -> keys_unique d -> keys_unique (Dict.set k udid v d).
Proof.
  intros Hk (ks & Hm & Hnd). unfold keys_unique, Dict.set.
  destruct (Dict.get k d) eqn:Hg.
  - exists ks. by rewrite DictFacts.keys_replace.
  - exists (ks ++ [k]). unfold Dict.keys. rewrite !map_app. split.
    + fold (Dict.keys d). rewrite Hm. simpl. by rewrite Hk.
    + apply NoDup_app. split; [exact Hnd|]. split; [|apply NoDup_singleton].
      intros k' Hin Hin'. apply list_elem_of_In in Hin.
      apply list_elem_of_singleton in Hin'. subst k'.
      apply DictFacts.get_none_keys in Hg.
      rewrite (hashed_key_present _ _ _ Hm Hin) in Hg. discriminate Hg.
Qed.

Lemma keys_unique_del {V} (d : Dict.t V) k : keys_unique d -> keys_unique (Dict.del k d).
Proof.
  intros (ks & Hm & Hnd). unfold keys_unique. rewrite DictFacts.keys_del.
  exists (filter (fun k' => k <> k') ks).
  split; [|by apply NoDup_filter].
  clear Hnd. revert ks Hm. generalize (Dict.keys d) as objs.
  induction objs as [|obj objs IH]; intros [|k' ks] Hm; try discriminate Hm;
    [reflexivity|].
  simpl in Hm. injection Hm as Hh Hm. simpl.
  unfold Dict.is_key at 1. rewrite Hh, filter_cons.
  destruct (decide (k = k')) as [->|Hne].
  - rewrite bool_decide_eq_true_2 by done. simpl.
    rewrite decide_False by (intros H; by apply H). by apply IH.
  - rewrite bool_decide_eq_false_2 by done. simpl.
    rewrite decide_True by done. simpl. by rewrite Hh, (IH ks Hm).
Qed.

Lemma registered_hub_sound websocket udid k body st :
  hash udid = Ok k -> payload_key body = Ok k ->
  registry_sound st -> registry_sound (registered_hub websocket udid k body st).
Proof.
  intros Hk Hp (Ht & Hu & Hl). repeat split; simpl.
  - by apply table_consistent_set.
  - by apply keys_unique_set.
  - by apply keys_unique_set.
Qed.

Lemma process_sound t1 t2 websocket data st :
  registry_sound st -> registry_sound (process t1 t2 websocket data st).1.
Proof.
  intros Hst. rewrite process_state.
  destruct (dispatch t1 t2 websocket data st) as [st' r] eqn:Hd.
  destruct (dispatch_registry_payload _ _ _ _ _ _ _ Hd)
    as [(Ht & Hl & _) | (udid & k & body & Hk & Hp & ->)]; simpl.
  - unfold registry_sound. by rewrite Ht, Hl.
  - by apply registered_hub_sound.
Qed.

Lemma on_close_sound websocket st :
  registry_sound st -> registry_sound (on_close websocket st).1.
Proof.
  intros (Ht & Hu & Hl). unfold registry_sound.
  destruct (on_close_table websocket st) as [-> | [k ->]];
    destruct (on_close_links websocket st) as [-> | [k' ->]];
    repeat split;
    auto using table_consistent_del, keys_unique_del.
Qed.

Lemma table_consistent_get table k body :
  table_consistent table -> Dict.get k table = Some body -> payload_key body = Ok k.
Proof.
  induction 1 as [|[obj v] table (k0 & Hk0 & Hp) _ IH]; [discriminate|].
  simpl. destruct (Dict.is_key k obj) eqn:E; [|exact IH].
  intros [= ->]. apply DictFacts.is_key_true in E. simpl in Hk0, Hp. congruence.
Qed.

Section Reachable.

Variable json_loads : nat -> string -> loaded.

Lemma step_sound ev st : registry_sound st -> registry_sound (step json_loads ev st).1.
Proof.
  intros Hst.
  destruct ev as [websocket serial t1 t2 [payload|raw] | websocket | websocket]; simpl.
  - exact Hst.
  - destruct (json_loads serial raw); [by apply process_sound | exact Hst | exact Hst].
  - by apply on_close_sound.
  - exact Hst.
Qed.

Lemma run_sound evs st : registry_sound st -> registry_sound (run json_loads evs st).1.
Proof.
  revert st. induction evs as [|ev evs IH]; intros st Hst; simpl; [exact Hst|].
  pose proof (step_sound ev st Hst) as Hstep.
  destruct (step json_loads ev st) as [st' out].
  specialize (IH st' Hstep).
  by destruct (run json_loads evs st') as [st'' out'].
Qed.

Lemma empty_hub_sound : registry_sound empty_hub.
Proof.
  split; [apply List.Forall_nil|].
  split; exists []; (split; [reflexivity | apply NoDup_nil_2]).
Qed.

(** After any sequence of messages and closed connections, every
    payload of [device_table] is stored under a key equal, as a
    dictionary key, to the udid it carries in [system.udid]: looking a
    udid up never yields the state of another device. *)
Theorem payload_under_its_udid (evs : list event) :
  let st := (run json_loads evs empty_hub).1 in
  table_consistent (device_table st) /\
  forall k body, Dict.get k (device_table st) = Some body -> payload_key body = Ok k.
Proof.
  intros st.
  assert (Hs : registry_sound st) by apply run_sound, empty_hub_sound.
  destruct Hs as (Ht & _ & _). split; [exact Ht|].
  intros k body. by apply table_consistent_get.
Qed.

(** After any sequence of messages and closed connections, every key
    object of [device_table] and of [device_links] is hashable and no
    two entries of one dictionary have keys that are equal as
    dictionary keys, where [1], [1.0] and [True] are equal and a NaN
    is equal to itself alone. *)
Theorem registry_keys_unique (evs : list event) :
  let st := (run json_loads evs empty_hub).1 in
  keys_unique (device_table st) /\ keys_unique (device_links st).
Proof.
  intros st.
  assert (Hs : registry_sound st) by apply run_sound, empty_hub_sound.
  destruct Hs as (_ & Hu & Hl). by split.
Qed.

End Reachable.

(** ** A close handler that raises *)

(** In a hub whose [device_links] and [device_table] hold the same
    udids, as every hub the events can produce does, a close handler
    that raises has deleted nothing: the hub is what it was, stale
    reverse entry included. *)
Theorem close_raises_unchanged (websocket : conn) (st st' : hub) (e : exn) :
  registry_agrees st ->
  connection_closed websocket st = (st', Raise e) ->
  st' = st.
Proof.
  intros Hst. unfold connection_closed. unfold_monad. simpl.
  case_bool_decide; [discriminate|].
  destruct (device_links_map st !! websocket) as [udid|]; [|discriminate].
  unfold del_item, rbind.
  destruct (hash udid) as [k|]; [|by intros [= <- _]].
  destruct (Dict.get k (device_table st)) eqn:Hb; [|by intros [= <- _]]. simpl.
  destruct (Dict.get k (device_links st)) eqn:Hd.
  - simpl. change (has_controllers _) with (has_controllers st).
    destruct (has_controllers st); discriminate.
  - assert (is_Some (Dict.get k (device_links st))) as [? ?]; [|congruence].
    apply (DictFacts.get_some_keys k (device_table st)); [done | eauto].
Qed.

Lemma close_raises_unchanged_witness :
  registry_agrees hub_stale /\
  connection_closed 4%nat hub_stale = (hub_stale, Raise KeyError) /\
  hub_stale = hub_stale.
Proof.
  assert (H1 : registry_agrees hub_stale) by reflexivity.
  assert (H2 : connection_closed 4%nat hub_stale = (hub_stale, Raise KeyError)).
  { vm_compute. reflexivity. }
  split; [exact H1|]. split; [exact H2|].
  exact (close_raises_unchanged 4%nat hub_stale hub_stale KeyError H1 H2).
Defined.

Example hub_stale_reached :
  (on_close 1%nat (process 0 0 4%nat sample_state hub_device).1).1 = hub_stale.
Proof. vm_compute. reflexivity. Qed.

(** ** Where messages go *)

Lemma get_in_values {V} k (d : Dict.t V) v :
  Dict.get k d = Some v -> In v (Dict.values d).
Proof.
  induction d as [|[obj w] d IH]; [discriminate|]. simpl.
  destruct (Dict.is_key k obj); [intros [= ->]; by left | intros H; right; by apply IH].
Qed.

Lemma collect_forall {A B} (P : B -> Prop) (f : A -> result (list B)) l out :
  (forall a bs, f a = Ok bs -> List.Forall P bs) ->
  collect f l = Ok out -> List.Forall P out.
Proof.
  intros Hf. revert out. induction l as [|a l IH]; intros out; simpl.
  - intros [= <-]. constructor.
  - unfold rbind. destruct (f a) as [bs|] eqn:Ha; [|discriminate].
    destruct (collect f l) as [cs|]; [|discriminate].
    intros [= <-]. apply List.Forall_app. split; [by apply (Hf a) | by apply IH].
Qed.

Lemma command_send_targets links message udid sends :
  command_send links message udid = Ok sends ->
  List.Forall (fun s => In s.1 (Dict.values links)) sends.
Proof.
  unfold command_send, lookup_item, rbind.
  destruct (hash udid) as [k|]; [|discriminate].
  destruct (Dict.get k links) as [dev|] eqn:Hg; [|discriminate].
  destruct (getitem message "type"); [|discriminate].
  destruct (body_or_empty message); [|discriminate].
  intros [= <-]. constructor; [|constructor]. simpl. by apply (get_in_values k).
Qed.

Lemma to_controllers_known payload sender before st :
  List.Forall (known_target sender before st) (to_controllers payload st).
Proof.
  unfold to_controllers. rewrite List.Forall_map. apply List.Forall_forall.
  intros c Hc. right. right. simpl. apply elem_of_elements, list_elem_of_In, Hc.
Qed.

Lemma relay_targets websocket data sender before st st' sends :
  relay websocket data st = (st', Ok sends) ->
  st' = st /\ List.Forall (known_target sender before st) sends.
Proof.
  unfold relay. unfold_monad. simpl.
  destruct (has_controllers st); [|intros [= <- <-]; split; [done|constructor]].
  destruct (device_links_map st !! websocket) as [udid|];
    [|intros [= <- <-]; split; [done|constructor]].
  destruct (setitem data "udid" udid); [|discriminate].
  intros [= <- <-]. split; [done|]. apply to_controllers_known.
Qed.

Lemma known_target_sender sender before after payload :
  known_target sender before after (sender, payload).
Proof. by left. Qed.

Lemma known_target_device sender before after (links : Dict.t conn) sends :
  links = device_links before ->
  List.Forall (fun s => In s.1 (Dict.values links)) sends ->
  List.Forall (known_target sender before after) sends.
Proof.
  intros ->. apply List.Forall_impl. intros s Hs. right. by left.
Qed.

Lemma control_devices_targets t1 t2 websocket data st st' sends :
  control_devices t1 t2 websocket data st = (st', Ok sends) ->
  List.Forall (known_target websocket st st') sends.
Proof.
  unfold control_devices. unfold_monad.
  destruct (getitem data "ts"); [|discriminate].
  destruct (is_data_valid t1 t2 data) as [[|]|]; simpl; [| |discriminate].
  - intros [= <- <-]. constructor; [apply known_target_sender | constructor].
  - intros [= <- <-]. constructor.
Qed.

Lemma control_refresh_targets t1 t2 websocket data st st' sends :
  control_refresh t1 t2 websocket data st = (st', Ok sends) ->
  List.Forall (known_target websocket st st') sends.
Proof.
  unfold control_refresh. unfold_monad.
  destruct (is_data_valid t1 t2 data) as [[|]|]; simpl; [| |discriminate].
  - intros [= <- <-]. rewrite List.Forall_map. apply List.Forall_forall.
    intros dev Hdev. right. left. exact Hdev.
  - intros [= <- <-]. constructor.
Qed.

Lemma control_command_targets t1 t2 websocket data st st' sends :
  control_command t1 t2 websocket data st = (st', Ok sends) ->
  List.Forall (known_target websocket st st') sends.
Proof.
  unfold control_command. unfold_monad.
  destruct (is_data_valid t1 t2 data) as [[|]|]; simpl; [| |discriminate].
  - destruct (getitem data "body") as [body|]; [|discriminate].
    destruct (getitem body "devices") as [devices|]; [|discriminate]. simpl.
    unfold rbind. destruct (iterate devices) as [udids|]; [|discriminate].
    destruct (collect (command_send (device_links st) body) udids) as [out|] eqn:Hc;
      [|discriminate].
    intros [= <- <-]. apply (known_target_device _ _ _ (device_links st)); [done|].
    apply (collect_forall _ _ _ _ (command_send_targets (device_links st) body) Hc).
  - intros [= <- <-]. constructor.
Qed.

Lemma control_commands_targets t1 t2 websocket data st st' sends :
  control_commands t1 t2 websocket data st = (st', Ok sends) ->
  List.Forall (known_target websocket st st') sends.
Proof.
  unfold control_commands. unfold_monad.
  destruct (is_data_valid t1 t2 data) as [[|]|]; simpl; [| |discriminate].
  - destruct (getitem data "body") as [body|]; [|discriminate].
    destruct (getitem body "devices") as [devices|]; [|discriminate].
    destruct (getitem body "commands") as [commands|]; [|discriminate]. simpl.
    unfold rbind at 1. destruct (iterate devices) as [udids|]; [|discriminate].
    match goal with
    | |- context [collect ?f udids] => destruct (collect f udids) as [out|] eqn:Hc
    end; [|discriminate].
    intros [= <- <-]. apply (known_target_device _ _ _ (device_links st)); [done|].
    revert Hc. apply collect_forall. intros udid bs. unfold rbind.
    destruct (iterate commands) as [cmds|]; [|discriminate].
    apply collect_forall. intros cmd cs. apply command_send_targets.
  - intros [= <- <-]. constructor.
Qed.

Lemma dispatch_targets t1 t2 websocket data st st' sends :
  dispatch t1 t2 websocket data st = (st', Ok sends) ->
  List.Forall (known_target websocket st st') sends.
Proof.
  unfold dispatch, bind at 1, lift at 1.
  destruct (getitem data "type") as [ty|]; [|discriminate].
  destruct (is_str ty "control/devices"); [apply control_devices_targets|].
  destruct (is_str ty "control/refresh"); [apply control_refresh_targets|].
  destruct (is_str ty "control/command"); [apply control_command_targets|].
  destruct (is_str ty "control/commands"); [apply control_commands_targets|].
  unfold bind.
  destruct ((if is_str ty "app/state" then app_state websocket data else ret ()) st)
    as [st0 [[]|e]]; [|discriminate].
  intros H. destruct (relay_targets _ _ websocket st _ _ _ H) as [-> Hf]. exact Hf.
Qed.

Lemma on_close_targets websocket st :
  List.Forall (known_target websocket st (on_close websocket st).1) (on_close websocket st).2.
Proof.
  unfold on_close, connection_closed. unfold_monad. simpl.
  case_bool_decide; [constructor|].
  destruct (device_links_map st !! websocket) as [udid|]; [|constructor].
  unfold del_item, rbind.
  destruct (hash udid) as [k|]; [|constructor].
  destruct (Dict.get k (device_table st)); [|constructor]. simpl.
  destruct (Dict.get k (device_links st)); [|constructor]. simpl.
  change (has_controllers _) with (has_controllers st).
  destruct (has_controllers st); [|constructor]. simpl.
  apply (to_controllers_known _ websocket st (unregistered_hub websocket k st)).
Qed.

Section Targets.

Variable json_loads : nat -> string -> loaded.

(** Whatever happens on a connection, the hub sends only to that
    connection, to connections that [device_links] held when the event
    came, and to connections that are controllers when it is done: it
    never writes to a connection it does not know in one of these
    ways. *)
Theorem send_targets (ev : event) (st : hub) :
  List.Forall (known_target (event_conn ev) st (step json_loads ev st).1)
              (step json_loads ev st).2.
Proof.
  destruct ev as [websocket serial t1 t2 [payload|raw] | websocket | websocket]; simpl.
  - constructor.
  - destruct (json_loads serial raw) as [data| |]; simpl.
    + unfold process.
      destruct (dispatch t1 t2 websocket data st) as [st' [sends|e]] eqn:Hd; simpl.
      * by apply (dispatch_targets t1 t2 websocket data).
      * constructor.
    + constructor; [apply known_target_sender | constructor].
    + constructor.
  - apply on_close_targets.
  - constructor.
Qed.

End Targets.

(** ** The clock between the two readings *)

(** [is_data_valid] reads the clock once for each bound.  When a second
    goes by in between, a correctly signed [ts] eleven seconds ahead of
    the first reading is accepted, though it is outside the window of
    that reading; in general the lower bound is against the first
    reading and the upper bound against the second. *)
Theorem clock_tick_widens_window (t1 t2 ts : Z) :
  is_data_valid t1 t2 (signed_request ts)
  = Ok (bool_decide (t1 - 10 <= ts /\ ts <= t2 + 10)) /\
  is_data_valid t1 (t1 + 1) (signed_request (t1 + 11)) = Ok true /\
  is_data_valid t1 t1 (signed_request (t1 + 11)) = Ok false.
Proof.
  assert (H : forall a b x,
             is_data_valid a b (signed_request x)
             = Ok (bool_decide (a - 10 <= x /\ x <= b + 10))).
  { intros a b x. rewrite is_data_valid_signed. f_equal.
    destruct (Z.leb_spec (a - 10) x), (Z.leb_spec x (b + 10)); simpl; symmetry;
      first [apply bool_decide_eq_true; lia | apply bool_decide_eq_false; lia]. }
  rewrite !H. split; [reflexivity|].
  split; f_equal; [apply bool_decide_eq_true | apply bool_decide_eq_false]; lia.
Qed.
